(** * problem-builder: the mixins of [problem_builder/mixins.py] and the CSV
    export task of [problem_builder/tasks.py], shallowly embedded. *)

From Stdlib Require Import String Ascii List Bool Arith Lia.
Import ListNotations.
Open Scope string_scope.
Open Scope list_scope.
Set Warnings "-register-all".

(** ** Python exceptions and a small exception monad *)

Inductive exn :=
| ValueError (msg : string)
| KeyError (key : string)
| IndexError
| AttributeError (attr : string)
| ItemNotFoundError
| InvalidKeyError
| TypeError (msg : string).

Inductive res (A : Type) :=
| Ok (a : A)
| Raise (e : exn).
Arguments Ok {A} a.
Arguments Raise {A} e.

Definition res_bind {A B} (m : res A) (k : A -> res B) : res B :=
  match m with Ok a => k a | Raise e => Raise e end.

Notation "x <- m ;; k" := (res_bind m (fun x => k))
  (at level 61, m at next level, right associativity).

(** ** Python dicts with string keys, as insertion-ordered association lists *)

(** [d[k] = v]: overwrite in place, or append a new key at the end. *)
Fixpoint dict_set {A : Type} (d : list (string * A)) (k : string) (v : A)
    : list (string * A) :=
  match d with
  | [] => [(k, v)]
  | (k', v') :: d' =>
      if String.eqb k' k then (k, v) :: d' else (k', v') :: dict_set d' k v
  end.

(** [d.get(k)] *)
Fixpoint dict_get {A : Type} (d : list (string * A)) (k : string) : option A :=
  match d with
  | [] => None
  | (k', v') :: d' => if String.eqb k' k then Some v' else dict_get d' k
  end.

(** [d.get(k, default)] *)
Definition dict_get_default {A : Type} (d : list (string * A)) (k : string)
    (default : A) : A :=
  match dict_get d k with Some v => v | None => default end.

(** ** String helpers: Python's [str(int)], [str.lower] and [in] *)

Fixpoint digits_aux (fuel n : nat) (acc : string) : string :=
  match fuel with
  | O => acc
  | S f =>
      let d := ascii_of_nat (48 + n mod 10) in
      if Nat.ltb n 10 then String d acc else digits_aux f (n / 10) (String d acc)
  end.

(** [str(n)] for a non-negative Python int. *)
Definition str_of_nat (n : nat) : string := digits_aux (S n) n EmptyString.

Definition lower_char (c : ascii) : ascii :=
  let n := nat_of_ascii c in
  if Nat.leb 65 n && Nat.leb n 90 then ascii_of_nat (n + 32) else c.

(** [s.lower()] on an ASCII string. *)
Fixpoint lower (s : string) : string :=
  match s with
  | EmptyString => EmptyString
  | String c s' => String (lower_char c) (lower s')
  end.

(** [pat in s] for Python strings: [pat] occurs contiguously in [s]. *)
Fixpoint str_contains (pat s : string) : bool :=
  prefix pat s ||
  match s with
  | EmptyString => false
  | String _ s' => str_contains pat s'
  end.

(** ** [MentoringBlock._get_standard_results]: the feedback decision *)

(** Modelled from the spec: [problem_builder/mentoring.py], which holds
    [_get_standard_results], is not among the sources (only its unit test
    is).  Section 4.4: [show_message] is true iff [student_results] is
    non-empty and (the [pb_hide_feedback_if_attempts_remain] option is false
    or [max_attempts_reached]). *)
Definition show_message {A : Type} (student_results : list A)
    (hide_feedback_if_attempts_remain max_attempts_reached : bool) : bool :=
  negb (match student_results with [] => true | _ => false end) &&
  (negb hide_feedback_if_attempts_remain || max_attempts_reached).

(** ** Usage keys and [_normalize_id] *)

Record usage_key := mkKey {
  uk_course : string;
  uk_block_type : string;
  uk_block_id : string;
  uk_branch : option string;
  uk_version : option string
}.

Definition usage_key_eq_dec (a b : usage_key) : {a = b} + {a <> b}.
Proof. repeat decide equality. Defined.

Definition key_eqb (a b : usage_key) : bool :=
  if usage_key_eq_dec a b then true else false.

(** [key.for_branch(None).for_version(None)] *)
Definition _normalize_id (k : usage_key) : usage_key :=
  {| uk_course := uk_course k; uk_block_type := uk_block_type k;
     uk_block_id := uk_block_id k; uk_branch := None; uk_version := None |}.

(** ** [StepParentMixin] and [EnumerableChildMixin] *)

Section Steps.

(** [child_isinstance(parent, child_id, QuestionMixin)], as the runtime
    answers it. *)
Variable is_question : usage_key -> bool.

(** [StepParentMixin.step_ids] *)
Definition step_ids (children : list usage_key) : list usage_key :=
  map _normalize_id (filter is_question children).

End Steps.

(** [list.index(x)]: the first position of [x], or [ValueError]. *)
Fixpoint list_index (x : usage_key) (l : list usage_key) : res nat :=
  match l with
  | [] => Raise (ValueError "x not in list")
  | y :: l' =>
      if key_eqb y x then Ok 0
      else (i <- list_index x l' ;; Ok (S i))
  end.

(** [CAPTION] of [QuestionMixin]. *)
Definition CAPTION : string := "Question".

(** A child block of a step parent: what [EnumerableChildMixin] reads.
    [siblings] is [self.get_parent().step_ids]. *)
Record step_block := mkStep {
  usage_id : usage_key;
  display_name : string;
  siblings : list usage_key
}.

(** [EnumerableChildMixin.step_number] *)
Definition step_number (b : step_block) : res nat :=
  i <- list_index (_normalize_id (usage_id b)) (siblings b) ;; Ok (i + 1).

Definition lonely_child_message : string :=
  CAPTION ++ "'s parent should contain " ++ CAPTION.

(** [EnumerableChildMixin.lonely_child] *)
Definition lonely_child (b : step_block) : res bool :=
  if existsb (key_eqb (_normalize_id (usage_id b))) (siblings b)
  then Ok (Nat.eqb (length (siblings b)) 1)
  else Raise (ValueError lonely_child_message).

(** [tmpl.format(child_caption=c, number=n)] for a template whose only
    replacement fields are [{child_caption}] and [{number}]. *)
Fixpoint format_caption_number (fuel : nat) (tmpl c n : string) : string :=
  match fuel with
  | O => tmpl
  | S f =>
      if prefix "{child_caption}" tmpl
      then c ++ format_caption_number f (substring 15 (String.length tmpl) tmpl) c n
      else if prefix "{number}" tmpl
      then n ++ format_caption_number f (substring 8 (String.length tmpl) tmpl) c n
      else match tmpl with
           | EmptyString => EmptyString
           | String ch t => String ch (format_caption_number f t c n)
           end
  end.

Definition format_title (tmpl c n : string) : string :=
  format_caption_number (String.length tmpl) tmpl c n.

Section Titles.

(** [self.runtime.service(self, "i18n").ugettext] *)
Variable ugettext : string -> string.

(** [EnumerableChildMixin.display_name_with_default] *)
Definition display_name_with_default (b : step_block) : res string :=
  if negb (String.eqb (display_name b) "") then Ok (display_name b)
  else
    lonely <- lonely_child b ;;
    if negb lonely then
      n <- step_number b ;;
      Ok (format_title (ugettext "{child_caption} {number}") CAPTION (str_of_nat n))
    else Ok (ugettext CAPTION).

End Titles.

(** ** [MessageParentMixin.get_message_content] *)

(** A [MentoringMessageBlock] as the loop reads it: its [type] and
    [content] fields. *)
Record message_block := mkMessageBlock {
  mb_type : string;
  mb_content : string
}.

(** What the loop meets at one [child_id] of [self.children]: the outcome of
    [child_isinstance(self, child_id, MentoringMessageBlock)] (a runtime
    call that can raise), and that of [self.runtime.get_block(child_id)]
    (which can raise, or return [None]). *)
Record message_child := mkMessageChild {
  mc_isinstance : res bool;
  mc_get_block : res (option message_block)
}.

Section Messages.

(** [MentoringMessageBlock.MESSAGE_TYPES[t]['default']]; [None] when [t] is
    not a key of the table. *)
Variable MESSAGE_TYPES_default : string -> option string.

(** [getattr(self.runtime, 'replace_jump_to_id_urls', None)] *)
Variable replace_jump_to_id_urls : option (string -> string).

(** The [for child_id in self.children] loop: [Ok (Some content)] is its
    [return content], [Ok None] falling out of the loop.  [child.type] on a
    [None] child is an [AttributeError]. *)
Fixpoint find_message (message_type : string) (children : list message_child)
    : res (option string) :=
  match children with
  | [] => Ok None
  | child :: rest =>
      is_message <- mc_isinstance child ;;
      if is_message then
        blk <- mc_get_block child ;;
        match blk with
        | None => Raise (AttributeError "type")
        | Some b =>
            if String.eqb (mb_type b) message_type then
              let content := mb_content b in
              match replace_jump_to_id_urls with
              | Some rewrite => Ok (Some (rewrite content))
              | None => Ok (Some content)
              end
            else find_message message_type rest
        end
      else find_message message_type rest
  end.

(** [get_message_content(message_type, or_default)]; [Ok None] is Python's
    implicit [return None]. *)
Definition get_message_content (children : list message_child)
    (message_type : string) (or_default : bool) : res (option string) :=
  found <- find_message message_type children ;;
  match found with
  | Some content => Ok (Some content)
  | None =>
      if or_default then
        match MESSAGE_TYPES_default message_type with
        | Some d => Ok (Some ("<p>" ++ d ++ "</p>")%string)
        | None => Raise (KeyError message_type)
        end
      else Ok None
  end.

(** A child the loop passes without raising: it is classified, and a
    message child loads to a block. *)
Definition message_child_ok (c : message_child) : bool :=
  match mc_isinstance c with
  | Ok false => true
  | Ok true => match mc_get_block c with Ok (Some _) => true | _ => false end
  | Raise _ => false
  end.

(** A message child of the requested type. *)
Definition message_child_matches (message_type : string) (c : message_child) : bool :=
  match mc_isinstance c, mc_get_block c with
  | Ok true, Ok (Some b) => String.eqb (mb_type b) message_type
  | _, _ => false
  end.

End Messages.

(** ** [StudentViewUserStateMixin.build_user_state_data] *)

Inductive scope :=
| scope_content | scope_settings | scope_user_state | scope_preferences
| scope_user_info | scope_user_state_summary.

(** [field.scope in self.INCLUDE_SCOPES] *)
Definition in_include_scopes (s : scope) : bool :=
  match s with
  | scope_user_state | scope_user_info | scope_preferences => true
  | _ => false
  end.

Definition NESTED_BLOCKS_KEY : string := "components".

Section Projector.

(** Field values. *)
Variable V : Type.

(** A projection: a field value, or a nested dict. *)
Inductive proj :=
| PVal (v : V)
| PDict (d : list (string * proj)).

Record field := mkField { f_name : string; f_scope : scope; f_value : V }.

(** A block offering [build_user_state_data]: its [fields] (in
    [self.fields] order), [USER_STATE_FIELDS], [transforms()],
    [has_children], and its children as [(str(child_id), lookup)]. *)
Inductive node :=
| Node (fields : list field) (USER_STATE_FIELDS : list string)
       (transforms : list (string * (V -> res V))) (has_children : bool)
       (children : list (string * lookup))
(** What [self.runtime.get_block(child_id)] gives: an exception, [None], a
    block without [build_user_state_data], or one with it. *)
with lookup :=
| LRaise (e : exn)
| LNone
| LPlain
| LState (n : node).

(** [transforms.get(name, lambda value: value)].  A registered transform
    is a method that can raise (as [transform_student_results] does). *)
Definition transformer (transforms : list (string * (V -> res V))) (name : string)
    : V -> res V :=
  match dict_get transforms name with Some t => t | None => fun value => Ok value end.

(** One iteration of [for _, field in self.fields.iteritems()]. *)
Definition field_step (allow : list string) (transforms : list (string * (V -> res V)))
    (result : list (string * proj)) (f : field) : res (list (string * proj)) :=
  if in_include_scopes (f_scope f) && existsb (String.eqb (f_name f)) allow
  then (v <- transformer transforms (f_name f) (f_value f) ;;
        Ok (dict_set result (f_name f) (PVal v)))
  else Ok result.

Fixpoint fields_loop (allow : list string) (transforms : list (string * (V -> res V)))
    (fields : list field) (result : list (string * proj)) : res (list (string * proj)) :=
  match fields with
  | [] => Ok result
  | f :: fields' =>
      result' <- field_step allow transforms result f ;;
      fields_loop allow transforms fields' result'
  end.

Definition project_fields (fields : list field) (allow : list string)
    (transforms : list (string * (V -> res V))) : res (list (string * proj)) :=
  fields_loop allow transforms fields [].

Fixpoint build_user_state_data (n : node) : res (list (string * proj)) :=
  match n with
  | Node fields allow transforms has_children children =>
      result <- project_fields fields allow transforms ;;
      if has_children then
        components <-
          (fix go (cs : list (string * lookup)) (components : list (string * proj))
               : res (list (string * proj)) :=
             match cs with
             | [] => Ok components
             | (child_id, l) :: cs' =>
                 match l with
                 | LRaise e => Raise e
                 | LNone | LPlain => go cs' components
                 | LState child =>
                     d <- build_user_state_data child ;;
                     go cs' (dict_set components child_id (PDict d))
                 end
             end) children [] ;;
        Ok (dict_set result NESTED_BLOCKS_KEY (PDict components))
      else Ok result
  end.

End Projector.

Arguments PVal {V} v.
Arguments PDict {V} d.
Arguments mkField {V} f_name f_scope f_value.
Arguments f_name {V} _.
Arguments f_scope {V} _.
Arguments f_value {V} _.
Arguments Node {V} fields USER_STATE_FIELDS transforms has_children children.
Arguments LRaise {V} e.
Arguments LNone {V}.
Arguments LPlain {V}.
Arguments LState {V} n.

(** ** The CSV export task, [problem_builder/tasks.py] *)

(** The classes of [type_map]; [RatingBlock] subclasses [MCQBlock]. *)
Inductive block_class :=
| MCQBlock | RatingBlock | AnswerBlock | OtherBlock (name : string).

Definition class_eqb (a b : block_class) : bool :=
  match a, b with
  | MCQBlock, MCQBlock | RatingBlock, RatingBlock | AnswerBlock, AnswerBlock => true
  | OtherBlock x, OtherBlock y => String.eqb x y
  | _, _ => false
  end.

(** [issubclass(a, b)] *)
Definition subclass_of (a b : block_class) : bool :=
  match a, b with
  | RatingBlock, MCQBlock => true
  | _, _ => class_eqb a b
  end.

(** A block object as the task reads it.  [xb_display_name] is the value of
    [display_name_with_default] (a computed property that can raise for a
    question block, see [display_name_with_default] above); [xb_children]
    is [block.children] ([None]: the attribute does not exist);
    [xb_parent] is [block.get_parent() if block.parent else None]. *)
Inductive xblock := mkXBlock {
  xb_usage_id : usage_key;
  xb_class : block_class;
  xb_block_type : string;
  xb_display_name : res string;
  xb_question : string;
  xb_has_children : bool;
  xb_children : option (list usage_key);
  xb_parent : option xblock
}.

(** [isinstance(block, block_types)] for a tuple of classes. *)
Definition isinstance (b : xblock) (block_types : list block_class) : bool :=
  existsb (subclass_of (xb_class b)) block_types.

(** The content tree as the runtime resolves it: a node is a block with its
    children in [block.children] order; [block.runtime.get_block(child_id)]
    raises [ItemNotFoundError] on a [Missing] child. *)
Inductive tree :=
| TNode (b : xblock) (cs : list child)
with child :=
| Missing (child_id : usage_key)
| Found (t : tree).

(** *** A state-and-exception monad for the shared [blocks_to_include] list.
    The list is mutated in place, so its state survives an exception. *)

Definition st (S A : Type) := S -> res A * S.

Definition st_ret {S A} (a : A) : st S A := fun s => (Ok a, s).

Definition st_bind {S A B} (m : st S A) (k : A -> st S B) : st S B :=
  fun s => match m s with
           | (Ok a, s') => k a s'
           | (Raise e, s') => (Raise e, s')
           end.

Definition st_raise {S A} (e : exn) : st S A := fun s => (Raise e, s).

(** [try: m except ItemNotFoundError: pass] *)
Definition try_item_not_found {S} (m : st S unit) : st S unit :=
  fun s => match m s with
           | (Raise ItemNotFoundError, s') => (Ok tt, s')
           | r => r
           end.

(** [blocks_to_include.append(block)] *)
Definition append_block (b : xblock) : st (list xblock) unit :=
  fun s => (Ok tt, s ++ [b]).

(** The nested [scan_for_blocks] of [export_data]. *)
Fixpoint scan_for_blocks (block_types : list block_class) (t : tree)
    : st (list xblock) unit :=
  match t with
  | TNode block cs =>
      if isinstance block block_types then append_block block
      else if xb_has_children block then
        (fix go (cs : list child) : st (list xblock) unit :=
           match cs with
           | [] => st_ret tt
           | c :: cs' =>
               st_bind
                 (try_item_not_found
                    (match c with
                     | Missing _ => st_raise ItemNotFoundError
                     | Found t' => scan_for_blocks block_types t'
                     end))
                 (fun _ => go cs')
           end) cs
      else st_ret tt
  end.

(** *** [_get_context] *)

(** The [while block_iter] loop, filling [block_names_by_type]. *)
Fixpoint get_context_loop (block_iter : xblock)
    (block_names_by_type : list (string * string)) : res (list (string * string)) :=
  name <- xb_display_name block_iter ;;
  let names := dict_set block_names_by_type (xb_block_type block_iter) name in
  match xb_parent block_iter with
  | Some p => get_context_loop p names
  | None => Ok names
  end.

Definition _get_context (block : xblock) : res (string * string * string) :=
  names <- get_context_loop block [] ;;
  Ok (dict_get_default names "chapter" "",
      dict_get_default names "sequential" "",
      dict_get_default names "vertical" "").

(** [_get_type] *)
Definition _get_type (block : xblock) : string := xb_block_type block.

(** A submission dict: ['student_id'] (absent in single-student mode) and
    ['answer']. *)
Record submission := mkSubmission {
  sub_student_id : option string;
  sub_answer : string
}.

(** [modulestore().get_item(choice)] as [_get_answer] reads it: [value]
    ([None]: no such attribute) and [content]. *)
Record choice_block := mkChoice {
  cb_value : option string;
  cb_content : string
}.

(** [if not user_id] *)
Definition falsy_user_id (user_id : option string) : bool :=
  match user_id with None => true | Some u => String.eqb u "" end.

Definition HEADER : list string :=
  ["Section"; "Subsection"; "Unit"; "Type"; "Question"; "Answer"; "Username"].

Record export_result := mkExportResult {
  error : option string;
  report_filename : string;
  start_timestamp : nat;
  generation_time_s : nat;
  display_data : list (list string)
}.

(** [type_map[class_name]] *)
Definition type_map (class_name : string) : res block_class :=
  if String.eqb class_name "MCQBlock" then Ok MCQBlock
  else if String.eqb class_name "RatingBlock" then Ok RatingBlock
  else if String.eqb class_name "AnswerBlock" then Ok AnswerBlock
  else Raise (KeyError class_name).

Fixpoint map_res {A B} (f : A -> res B) (l : list A) : res (list B) :=
  match l with
  | [] => Ok []
  | x :: l' => y <- f x ;; ys <- map_res f l' ;; Ok (y :: ys)
  end.

(** [while root.parent: root = root.get_parent()] *)
Fixpoint ascend_to_root (root : xblock) : xblock :=
  match xb_parent root with
  | Some p => ascend_to_root p
  | None => root
  end.

Section ExportTask.

(** The host services the task calls. *)
Variable CourseKey_from_string : string -> option string.
Variable get_items : string -> string -> list (option xblock).
Variable runtime_tree : xblock -> tree.
Variable unicode_key : usage_key -> string.
Variable get_all_submissions : string -> string -> string -> list submission.
Variable get_submissions_limit_1 : option string -> string -> string -> string -> list submission.
Variable user_by_anonymous_id : option string -> option string.
Variable get_item : usage_key -> res choice_block.
Variable time_start time_end : nat.
Variable filename_of : nat -> string.

(** [_get_submissions] *)
Definition _get_submissions (course_key_str : string) (block : xblock)
    (user_id : option string) : list submission :=
  let block_id := unicode_key (_normalize_id (xb_usage_id block)) in
  let block_type := _get_type block in
  if falsy_user_id user_id then get_all_submissions course_key_str block_id block_type
  else get_submissions_limit_1 user_id block_id course_key_str block_type.

(** [_get_username]: [user_by_anonymous_id(student_id).username]. *)
Definition _get_username (s : submission) (user_id : option string) : res string :=
  let student_id := match sub_student_id s with Some i => Some i | None => user_id end in
  match user_by_anonymous_id student_id with
  | Some username => Ok username
  | None => Raise (AttributeError "username")
  end.

(** The [for choice in choices] loop of [_get_answer];
    [modulestore().get_item(choice)] raises [ItemNotFoundError] for a
    missing choice. *)
Fixpoint match_choice (answer : string) (choices : list usage_key) : res string :=
  match choices with
  | [] => Ok answer
  | choice :: rest =>
      choice_block <- get_item choice ;;
      match cb_value choice_block with
      | None => Raise (AttributeError "value")
      | Some v =>
          if String.eqb v answer then Ok (cb_content choice_block)
          else match_choice answer rest
      end
  end.

(** [_get_answer] *)
Definition _get_answer (block : xblock) (s : submission) : res string :=
  let answer := sub_answer s in
  match xb_children block with
  | None => Ok answer
  | Some choices => match_choice answer choices
  end.

(** [_extract_data] *)
Definition _extract_data (course_key_str : string) (block : xblock)
    (user_id : option string) (match_string : string) : res (list (list string)) :=
  ctx <- _get_context block ;;
  let '(section_name, subsection_name, unit_name) := ctx in
  let block_type := _get_type block in
  let block_question := xb_question block in
  let submissions := _get_submissions course_key_str block user_id in
  (fix loop (subs : list submission) (rows : list (list string))
       : res (list (list string)) :=
     match subs with
     | [] => Ok rows
     | submission :: subs' =>
         username <- _get_username submission user_id ;;
         answer <- _get_answer block submission ;;
         if negb (str_contains (lower match_string) (lower answer)) then loop subs' rows
         else loop subs' (rows ++ [[section_name; subsection_name; unit_name;
                                    block_type; block_question; answer; username]])
     end) submissions [].

(** The [try ... except InvalidKeyError: raise ValueError(...)] block.
    [CourseKey.from_string] raises [InvalidKeyError] on an unparsable id
    ([None] here).  The bare [raise InvalidKeyError] on a [None] first item
    instantiates the class with no arguments, but its [__init__] takes
    [key_class] and [serialized]: a [TypeError], which the [except] does not
    catch.  An empty lookup list raises [IndexError] at [[0]]. *)
Definition find_src_block (course_id source_block_id_str : string)
    : res (string * xblock) :=
  match
    (course_key <-
       match CourseKey_from_string course_id with
       | Some k => Ok k
       | None => Raise InvalidKeyError
       end ;;
     match get_items course_key source_block_id_str with
     | [] => Raise IndexError
     | None :: _ => Raise (TypeError "__init__() takes exactly 3 arguments (1 given)")
     | Some src_block :: _ => Ok (course_key, src_block)
     end)
  with
  | Raise InvalidKeyError => Raise (ValueError "Could not find the specified Block ID.")
  | r => r
  end.

(** [rows += _extract_data(...)] over [blocks_to_include]. *)
Fixpoint collect_rows (course_key_str : string) (blocks : list xblock)
    (user_id : option string) (match_string : string) (rows : list (list string))
    : res (list (list string)) :=
  match blocks with
  | [] => Ok rows
  | block :: blocks' =>
      results <- _extract_data course_key_str block user_id match_string ;;
      collect_rows course_key_str blocks' user_id match_string (rows ++ results)
  end.

(** [export_data]; the second component is the row set handed to
    [report_store.store_rows]. *)
Definition export_data (course_id source_block_id_str : string)
    (block_types : list string) (user_id : option string)
    (match_string : string) (get_root : bool)
    : res (export_result * list (list string)) :=
  src <- find_src_block course_id source_block_id_str ;;
  let '(course_key, src_block) := src in
  let course_key_str := course_key in
  let root := if get_root then ascend_to_root src_block else src_block in
  bts <- (match block_types with
          | [] => Ok [MCQBlock; RatingBlock; AnswerBlock]
          | _ => map_res type_map block_types
          end) ;;
  let '(scanned, blocks_to_include) := scan_for_blocks bts (runtime_tree root) [] in
  _ <- scanned ;;
  rows <- collect_rows course_key_str blocks_to_include user_id match_string [HEADER] ;;
  let filename := filename_of time_start in
  Ok ({| error := None;
         report_filename := filename;
         start_timestamp := time_start;
         generation_time_s := time_end - time_start;
         display_data := if Nat.eqb (length rows) 1 then [] else firstn 1000 (tl rows) |},
      rows).

(** One iteration of the [for submission in submissions] loop up to the
    filter: the username, then the resolved answer. *)
Definition resolve_submission (block : xblock) (user_id : option string)
    (s : submission) : res (string * string) :=
  username <- _get_username s user_id ;;
  answer <- _get_answer block s ;;
  Ok (username, answer).

End ExportTask.

(** The rows read as a post-filter over resolved submissions: keep the
    (username, answer) pairs whose lowercased answer contains the lowercased
    filter, and emit one row for each. *)
Definition post_filter_rows (ctx : string * string * string) (block : xblock)
    (match_string : string) (resolved : list (string * string)) : list (list string) :=
  let '(section_name, subsection_name, unit_name) := ctx in
  map (fun '(username, answer) =>
         [section_name; subsection_name; unit_name; _get_type block;
          xb_question block; answer; username])
      (filter (fun '(_, answer) => str_contains (lower match_string) (lower answer))
              resolved).

(** ** Side conditions on projector inputs *)

(** No duplicates in a list of names. *)
Fixpoint nodup_names (l : list string) : bool :=
  match l with
  | [] => true
  | x :: l' => negb (existsb (String.eqb x) l') && nodup_names l'
  end.

(** A node whose field names are distinct (they are the keys of
    [self.fields]), whose transforms return normally on the selected field
    values, and, when it has children, whose child ids are distinct and
    whose child lookups never raise, recursively. *)
Fixpoint node_ok {V : Type} (n : node V) : bool :=
  match n with
  | Node fields allow transforms has_children children =>
      nodup_names (map (@f_name V) fields) &&
      match project_fields V fields allow transforms with Ok _ => true | Raise _ => false end &&
      (negb has_children ||
       (nodup_names (map fst children) &&
        (fix go (cs : list (string * lookup V)) : bool :=
           match cs with
           | [] => true
           | (_, l) :: cs' =>
               match l with
               | LRaise _ => false
               | LNone | LPlain => true
               | LState m => node_ok m
               end && go cs'
           end) children))
  end.

(** The children loop of [build_user_state_data], with the recursive call
    passed in ([build_children_loop build_user_state_data] is that loop). *)
Fixpoint build_children_loop {V : Type} (build : node V -> res (list (string * proj V)))
    (cs : list (string * lookup V)) (components : list (string * proj V))
    : res (list (string * proj V)) :=
  match cs with
  | [] => Ok components
  | (child_id, l) :: cs' =>
      match l with
      | LRaise e => Raise e
      | LNone | LPlain => build_children_loop build cs' components
      | LState child =>
          d <- build child ;;
          build_children_loop build cs' (dict_set components child_id (PDict d))
      end
  end.

(** ** Views of a content tree used to state the scan's properties *)

(** The blocks [scan_for_blocks] appends, as a list. *)
Fixpoint collect (block_types : list block_class) (t : tree) : list xblock :=
  match t with
  | TNode b cs =>
      if isinstance b block_types then [b]
      else if xb_has_children b then
        flat_map (fun c => match c with Missing _ => [] | Found t' => collect block_types t' end) cs
      else []
  end.

(** Every block of the tree, root first. *)
Fixpoint tree_blocks (t : tree) : list xblock :=
  match t with
  | TNode b cs => b :: flat_map (fun c => match c with Missing _ => [] | Found t' => tree_blocks t' end) cs
  end.

(** The blocks strictly below the root. *)
Definition desc_blocks (t : tree) : list xblock :=
  match t with
  | TNode _ cs => flat_map (fun c => match c with Missing _ => [] | Found t' => tree_blocks t' end) cs
  end.

(** Every subtree, the tree itself first. *)
Fixpoint subtrees (t : tree) : list tree :=
  match t with
  | TNode b cs => t :: flat_map (fun c => match c with Missing _ => [] | Found t' => subtrees t' end) cs
  end.

Definition root_block (t : tree) : xblock := match t with TNode b _ => b end.

(** [x] is reached by the walk: a matching block found through resolved
    children of non-matching blocks that have children. *)
Inductive walk_reaches (block_types : list block_class) : tree -> xblock -> Prop :=
| reach_here b cs :
    isinstance b block_types = true -> walk_reaches block_types (TNode b cs) b
| reach_child b cs t x :
    isinstance b block_types = false -> xb_has_children b = true ->
    In (Found t) cs -> walk_reaches block_types t x ->
    walk_reaches block_types (TNode b cs) x.

(** ** Views of a parent chain used to state [_get_context]'s properties *)

(** The blocks the [while block_iter] loop visits: the block, its parent,
    and so on up to the root. *)
Fixpoint parent_chain (b : xblock) : list xblock :=
  b :: match xb_parent b with Some p => parent_chain p | None => [] end.

(** The title the loop records for a block whose property evaluates. *)
Definition title_of (b : xblock) : string :=
  match xb_display_name b with Ok n => n | Raise _ => "" end.

(** The title of the block of type [ty] farthest up the chain (closest to
    the root), or [""]. *)
Definition farthest_title (b : xblock) (ty : string) : string :=
  match find (fun x => String.eqb (xb_block_type x) ty) (rev (parent_chain b)) with
  | Some x => title_of x
  | None => ""
  end.

(** The title of the block of type [ty] nearest to [b] on its chain. *)
Definition nearest_title (b : xblock) (ty : string) : string :=
  match find (fun x => String.eqb (xb_block_type x) ty) (parent_chain b) with
  | Some x => title_of x
  | None => ""
  end.

(** ** Induction principles through the nested lists *)

(** Induction on projector nodes, with a hypothesis for each child the
    runtime resolves to a node. *)
Section NodeInd.
Variable V : Type.
Variable P : node V -> Prop.
Hypothesis HNode : forall fields allow transforms has_children children,
  Forall (fun p => match snd p with LState m => P m | _ => True end) children ->
  P (Node fields allow transforms has_children children).

Fixpoint node_ind' (n : node V) : P n :=
  match n with
  | Node fields allow transforms has_children children =>
      HNode fields allow transforms has_children children
        ((fix go (cs : list (string * lookup V))
            : Forall (fun p => match snd p with LState m => P m | _ => True end) cs :=
            match cs with
            | [] => Forall_nil _
            | x :: cs' =>
                Forall_cons x
                  (match x as x0
                         return (match snd x0 with LState m => P m | _ => True end) with
                   | (_, l) =>
                       match l as l0
                             return (match l0 with LState m => P m | _ => True end) with
                       | LState m => node_ind' m
                       | LRaise _ => I
                       | LNone => I
                       | LPlain => I
                       end
                   end)
                  (go cs')
            end) children)
  end.
End NodeInd.

(** Induction on content trees, through the resolved children. *)
Section TreeInd.
Variable P : tree -> Prop.
Hypothesis HNode : forall b cs,
  Forall (fun c => match c with Missing _ => True | Found t => P t end) cs -> P (TNode b cs).

Fixpoint tree_ind' (t : tree) : P t :=
  match t with
  | TNode b cs =>
      HNode b cs
        ((fix go (cs : list child)
            : Forall (fun c => match c with Missing _ => True | Found t => P t end) cs :=
            match cs with
            | [] => Forall_nil _
            | c :: cs' =>
                Forall_cons c
                  (match c as c0 return (match c0 with Missing _ => True | Found t => P t end) with
                   | Missing _ => I
                   | Found t' => tree_ind' t'
                   end)
                  (go cs')
            end) cs)
  end.
End TreeInd.

(** Induction on blocks along [xb_parent]. *)
Section XBlockInd.
Variable P : xblock -> Prop.
Hypothesis HBlock : forall uid cls ty dn q hc ch p,
  match p with Some x => P x | None => True end ->
  P (mkXBlock uid cls ty dn q hc ch p).

Fixpoint xblock_ind_opt (b : xblock) : P b :=
  match b with
  | mkXBlock uid cls ty dn q hc ch p =>
      HBlock uid cls ty dn q hc ch p
        (match p as p0 return (match p0 with Some x => P x | None => True end) with
         | Some x => xblock_ind_opt x
         | None => I
         end)
  end.
End XBlockInd.

(** A field [project_fields] keeps: an included scope and an allow-listed
    name. *)
Definition selected {V : Type} (allow : list string) (f : field V) : Prop :=
  In (f_scope f) [scope_user_state; scope_user_info; scope_preferences] /\
  In (f_name f) allow.

(** One step of the [while block_iter] loop when the title evaluates. *)
Definition record_title (d : list (string * string)) (x : xblock) : list (string * string) :=
  dict_set d (xb_block_type x) (title_of x).

(** ** [StudentViewUserStateResultsTransformerMixin] *)

(** JSON-like field values, as [student_results] holds them. *)
Inductive json :=
| JNull
| JBool (b : bool)
| JNum (n : nat)
| JStr (s : string)
| JList (l : list json)
| JDict (d : list (string * json)).

(** The exceptions of the transform: those of [exn], and [TTypeError],
    Python's [TypeError] for an object of the named type. *)
Inductive texn :=
| TExn (e : exn)
| TTypeError (type_name : string).

Inductive tres (A : Type) :=
| TOk (a : A)
| TRaise (e : texn).
Arguments TOk {A} a.
Arguments TRaise {A} e.

(** [type(value).__name__] *)
Definition type_name (value : json) : string :=
  match value with
  | JNull => "NoneType"
  | JBool _ => "bool"
  | JNum _ => "int"
  | JStr _ => "str"
  | JList _ => "list"
  | JDict _ => "dict"
  end.

(** [del d[key]]: the key's entry is removed, or [KeyError]. *)
Fixpoint dict_del {A : Type} (d : list (string * A)) (key : string)
    : res (list (string * A)) :=
  match d with
  | [] => Raise (KeyError key)
  | (k, v) :: d' =>
      if String.eqb k key then Ok d'
      else (r <- dict_del d' key ;; Ok ((k, v) :: r))
  end.

(** [delete_key(dictionary, key)]: [del dictionary[key]] with [KeyError]
    caught; deleting an item of anything but a dict is a [TypeError]. *)
Definition delete_key (dictionary : json) (key : string) : tres json :=
  match dictionary with
  | JDict d =>
      match dict_del d key with
      | Ok d' => TOk (JDict d')
      | Raise (KeyError _) => TOk dictionary
      | Raise e => TRaise (TExn e)
      end
  | other => TRaise (TTypeError (type_name other))
  end.

(** [for item in value]: the items the iteration yields (a dict yields its
    keys, a string its characters). *)
Definition py_iter (value : json) : tres (list json) :=
  match value with
  | JList l => TOk l
  | JDict d => TOk (map (fun kv => JStr (fst kv)) d)
  | JStr s => TOk (map (fun c => JStr (String c EmptyString)) (list_ascii_of_string s))
  | other => TRaise (TTypeError (type_name other))
  end.

(** [self.delete_key(choice, 'tips')] on each item in turn. *)
Fixpoint delete_tips_each (items : list json) : tres (list json) :=
  match items with
  | [] => TOk []
  | item :: rest =>
      match delete_key item "tips" with
      | TRaise e => TRaise e
      | TOk item' =>
          match delete_tips_each rest with
          | TRaise e => TRaise e
          | TOk rest' => TOk (item' :: rest')
          end
      end
  end.

(** [for choice in choices: self.delete_key(choice, 'tips')]; the items of
    a list are updated in place, so the list comes back with them. *)
Definition delete_tips_in (choices : json) : tres json :=
  match py_iter choices with
  | TRaise e => TRaise e
  | TOk items =>
      match delete_tips_each items with
      | TRaise e => TRaise e
      | TOk items' => TOk (match choices with JList _ => JList items' | _ => choices end)
      end
  end.

(** The body of the outer loop on [current_student_results]:
    [.get('choices', [])], the inner loop, then [delete_key(current, 'tips')].
    The choices are [current]'s own value when the key is present, so their
    update shows in [current]. *)
Definition transform_one (current : json) : tres json :=
  match current with
  | JDict d =>
      match delete_tips_in (dict_get_default d "choices" (JList [])) with
      | TRaise e => TRaise e
      | TOk choices' =>
          let d' := match dict_get d "choices" with
                    | Some _ => dict_set d "choices" choices'
                    | None => d
                    end in
          delete_key (JDict d') "tips"
      end
  | _ => TRaise (TExn (AttributeError "get"))
  end.

(** [transform_student_results(student_results)] over the
    [(_name, current_student_results)] pairs. *)
Fixpoint transform_student_results (student_results : list (string * json))
    : tres (list (string * json)) :=
  match student_results with
  | [] => TOk []
  | (name, current) :: rest =>
      match transform_one current with
      | TRaise e => TRaise e
      | TOk current' =>
          match transform_student_results rest with
          | TRaise e => TRaise e
          | TOk rest' => TOk ((name, current') :: rest')
          end
      end
  end.

(** *** Views used to state the transform's properties *)

(** A dict without its [key] entries. *)
Definition drop_key {A : Type} (key : string) (d : list (string * A)) : list (string * A) :=
  filter (fun kv => negb (String.eqb (fst kv) key)) d.

Definition without_tips (value : json) : json :=
  match value with JDict d => JDict (drop_key "tips" d) | other => other end.

(** A result dict with ['tips'] removed from it and from each dict of its
    ['choices'] list. *)
Definition tips_removed (current : json) : json :=
  match current with
  | JDict d =>
      JDict (drop_key "tips"
               (match dict_get d "choices" with
                | Some (JList cs) => dict_set d "choices" (JList (map without_tips cs))
                | _ => d
                end))
  | other => other
  end.

Definition is_dict (value : json) : bool :=
  match value with JDict _ => true | _ => false end.

(** A ['choices'] value whose iteration yields dicts only. *)
Definition choices_ok (choices : json) : bool :=
  match choices with
  | JList l => forallb is_dict l
  | JDict d => match d with [] => true | _ => false end
  | JStr s => String.eqb s ""
  | _ => false
  end.

(** A result the transform accepts: a dict whose ['choices'], if any,
    iterates over dicts. *)
Definition result_ok (current : json) : bool :=
  match current with
  | JDict d => match dict_get d "choices" with None => true | Some c => choices_ok c end
  | _ => false
  end.

(** Dict keys are unique: in each result dict and each dict of its
    ['choices'] list. *)
Definition results_keys_unique (student_results : list (string * json)) : Prop :=
  forall name d, In (name, JDict d) student_results ->
    NoDup (map fst d) /\
    forall cs cd, dict_get d "choices" = Some (JList cs) -> In (JDict cd) cs ->
      NoDup (map fst cd).

(** ** More of the export task *)

(** The [block_types] tuple [export_data] builds. *)
Definition block_classes (block_types : list string) : res (list block_class) :=
  match block_types with
  | [] => Ok [MCQBlock; RatingBlock; AnswerBlock]
  | _ => map_res type_map block_types
  end.

(** * Concrete data used by the witnesses *)

(** [s.replace(pat, rep)] for a non-empty [pat]. *)
Fixpoint replace_fuel (fuel : nat) (pat rep s : string) : string :=
  match fuel with
  | O => s
  | S f =>
      if prefix pat s then
        (rep ++ replace_fuel f pat rep (substring (String.length pat) (String.length s) s))%string
      else match s with
           | EmptyString => EmptyString
           | String c s' => String c (replace_fuel f pat rep s')
           end
  end.

Definition str_replace (pat rep s : string) : string :=
  replace_fuel (String.length s) pat rep s.

(** The link-rewrite hook of [TestMentoringBlockJumpToIds]. *)
Definition test_jump_hook : string -> string := str_replace "test" "replaced-url".

(** The default table of [MentoringMessageBlock.MESSAGE_TYPES] for the
    witnesses (only its ['default'] entries matter here). *)
Definition sample_message_defaults (t : string) : option string :=
  if String.eqb t "completed" then Some "Great job!"
  else if String.eqb t "incomplete" then Some "You might consider reviewing your answers."
  else None.

(** A parent's children: a "completed" message whose block has been
    deleted (the runtime raises [ItemNotFoundError] when loading it), then
    an intact "completed" message. *)
Definition broken_message_children : list message_child :=
  [mkMessageChild (Ok true) (Raise ItemNotFoundError);
   mkMessageChild (Ok true) (Ok (Some (mkMessageBlock "completed" "Well done")))].

Definition mcq_key (name : string) : usage_key :=
  mkKey "course-v1:Org+Course+Run" "pb-mcq" name (Some "draft") None.

(** A mentoring-like node: two user-state fields of which one is
    allow-listed, a content field, and three children (a question block with
    its own projection, an HTML block without one, and a child the runtime
    returns as [None]). *)
Definition sample_step_node : node nat :=
  Node [mkField "student_results" scope_user_state 3] ["student_results"] [] false [].

Definition sample_mentoring_node : node nat :=
  Node [mkField "num_attempts" scope_user_state 2; mkField "attempted" scope_user_state 1;
        mkField "display_name" scope_content 0]
       ["num_attempts"; "display_name"]
       [("num_attempts", fun v => Ok (v + 10))]
       true
       [("block-v1:mcq", LState sample_step_node); ("block-v1:html", LPlain);
        ("block-v1:gone", LNone)].

(** A node whose allow-list names a user-state field "components", and
    whose only child resolves to a block without [build_user_state_data]. *)
Definition colliding_node : node nat :=
  Node [mkField "components" scope_user_state 7] ["components"] [] true
       [("block-v1:html", LPlain)].

(** A Python call of a [tres]-valued function, as [build_user_state_data]
    sees it: a [TypeError] keeps the type name as its message. *)
Definition to_res {A : Type} (r : tres A) : res A :=
  match r with
  | TOk a => Ok a
  | TRaise (TExn e) => Raise e
  | TRaise (TTypeError t) => Raise (TypeError t)
  end.

(** A mentoring step holding [student_results] and registering
    [transform_student_results] as its transform. *)
Definition results_step_node (student_results : list (string * json))
    : node (list (string * json)) :=
  Node [mkField "student_results" scope_user_state student_results] ["student_results"]
       [("student_results", fun v => to_res (transform_student_results v))] false [].

(** A result that is a string, not a dict: [transform_student_results]
    calls [.get] on it. *)
Definition malformed_student_results : list (string * json) := [("q1", JStr "correct")].

(** A mentoring block whose children are an HTML block and the step above. *)
Definition results_parent_node : node (list (string * json)) :=
  Node [] [] [] true
       [("block-v1:html", LPlain);
        ("block-v1:step", LState (results_step_node malformed_student_results))].

(** A course outline: course, chapter "S", sequential "Sub", vertical "U". *)
Definition sample_course_id : string := "course-v1:Org+Course+Run".

Definition sample_key (ty name : string) : usage_key :=
  mkKey sample_course_id ty name None None.

Definition sample_block (cls : block_class) (ty name title : string)
    (has_children : bool) (parent : option xblock) : xblock :=
  mkXBlock (sample_key ty name) cls ty (Ok title) "" has_children None parent.

Definition course_blk : xblock :=
  sample_block (OtherBlock "CourseBlock") "course" "course" "Course" true None.
Definition chapter_blk : xblock :=
  sample_block (OtherBlock "SectionBlock") "chapter" "ch1" "S" true (Some course_blk).
Definition sequential_blk : xblock :=
  sample_block (OtherBlock "SequenceBlock") "sequential" "seq1" "Sub" true (Some chapter_blk).
Definition vertical_blk : xblock :=
  sample_block (OtherBlock "VerticalBlock") "vertical" "u1" "U" true (Some sequential_blk).

(** A free-text question in unit "U". *)
Definition answer_blk : xblock :=
  mkXBlock (sample_key "pb-answer" "ans1") AnswerBlock "pb-answer" (Ok "Answer")
           "Favourite animal?" false None (Some vertical_blk).

(** A multiple-choice question in unit "U". *)
Definition mcq_blk : xblock :=
  mkXBlock (sample_key "pb-mcq" "mcq1") MCQBlock "pb-mcq" (Ok "Question")
           "Pick one" true (Some []) (Some vertical_blk).

(** A split test inside unit "U" whose group is itself a vertical,
    "Group A", holding a multiple-choice question. *)
Definition split_blk : xblock :=
  sample_block (OtherBlock "SplitTestBlock") "split_test" "ab1" "Experiment" true
               (Some vertical_blk).
Definition group_blk : xblock :=
  sample_block (OtherBlock "VerticalBlock") "vertical" "groupA" "Group A" true (Some split_blk).
Definition grouped_mcq_blk : xblock :=
  mkXBlock (sample_key "pb-mcq" "mcq2") MCQBlock "pb-mcq" (Ok "Question")
           "Pick another" true (Some []) (Some group_blk).

(** Unit "U" with three children, the second of which the runtime cannot
    load. *)
Definition sample_unit_tree : tree :=
  TNode vertical_blk [Found (TNode answer_blk []); Missing (sample_key "html" "gone");
                      Found (TNode mcq_blk [])].

Definition sample_course_tree : tree :=
  TNode course_blk [Found (TNode chapter_blk [Found (TNode sequential_blk
                                                  [Found sample_unit_tree])])].

(** The host services for the export witnesses. *)
Definition sample_course_key (s : string) : option string :=
  if String.eqb s sample_course_id then Some s else None.
Definition items_found (_ _ : string) : list (option xblock) := [Some answer_blk].
Definition sample_runtime_tree (_ : xblock) : tree := sample_course_tree.
Definition sample_unicode_key (k : usage_key) : string := uk_block_id k.
Definition sample_all_submissions (course block_id block_type : string) : list submission :=
  if String.eqb block_id "ans1" then
    [mkSubmission (Some "anon-1") "cat"; mkSubmission (Some "anon-2") "dog"]
  else [].
Definition sample_submissions_limit_1 (_ : option string) (_ _ _ : string) : list submission := [].
Definition sample_user (student_id : option string) : option string :=
  match student_id with
  | Some i => if String.eqb i "anon-1" then Some "alice"
              else if String.eqb i "anon-2" then Some "bob" else None
  | None => None
  end.
Definition sample_get_item (_ : usage_key) : res choice_block := Ok (mkChoice None "").
Definition sample_filename (_ : nat) : string := "pb-data-export.csv".

(** A question block whose [display_name_with_default] raises: untitled,
    and missing from its parent's step list. *)
Definition stale_question_blk : xblock :=
  mkXBlock (sample_key "pb-mcq" "mcq3") MCQBlock "pb-mcq"
           (Raise (ValueError "Question's parent should contain Question"))
           "Pick again" true (Some []) (Some vertical_blk).

(** [get_items] looking a block up by its name in the sample course. *)
Definition items_by_name (_ name : string) : list (option xblock) :=
  if String.eqb name "ans1" then [Some answer_blk]
  else if String.eqb name "u1" then [Some vertical_blk]
  else [].

(** [student_results] of a mentoring block: one result with tips at both
    levels, and a result without choices. *)
Definition sample_student_results : list (string * json) :=
  [("q1", JDict [("status", JStr "correct"); ("tips", JStr "<p>Well done</p>");
                 ("choices", JList [JDict [("value", JStr "a"); ("tips", JStr "<p>A</p>")];
                                    JDict [("value", JStr "b")]])]);
   ("q2", JDict [("status", JStr "incorrect"); ("score", JNum 0)])].

(** * Properties *)

(** ** Helper lemmas *)

Lemma key_eqb_spec (a b : usage_key) : key_eqb a b = true <-> a = b.
Proof. unfold key_eqb; destruct (usage_key_eq_dec a b); split; congruence. Qed.

Lemma list_index_nth (l : list usage_key) (i : nat) (x : usage_key) :
  NoDup l -> nth_error l i = Some x -> list_index x l = Ok i.
Proof.
  revert i; induction l as [|y l IH]; intros i Hnd Hi.
  - destruct i; discriminate.
  - inversion Hnd as [|? ? Hnotin Hnd']; subst.
    destruct i as [|i]; simpl in Hi |- *.
    + injection Hi as ->. destruct (key_eqb x x) eqn:E; [reflexivity|].
      exfalso. assert (x = x) as Hx by reflexivity.
      apply key_eqb_spec in Hx. congruence.
    + destruct (key_eqb y x) eqn:E.
      * apply key_eqb_spec in E; subst. exfalso. apply Hnotin.
        eapply nth_error_In; eassumption.
      * rewrite (IH i Hnd' Hi). reflexivity.
Qed.

Lemma list_index_absent (l : list usage_key) (x : usage_key) :
  ~ In x l -> list_index x l = Raise (ValueError "x not in list").
Proof.
  induction l as [|y l IH]; intro Hn; simpl; [reflexivity|].
  destruct (key_eqb y x) eqn:E.
  - apply key_eqb_spec in E; subst. exfalso. apply Hn; left; reflexivity.
  - rewrite IH; [reflexivity|]. intro H; apply Hn; right; exact H.
Qed.

Lemma existsb_key_In (x : usage_key) (l : list usage_key) :
  existsb (key_eqb x) l = true <-> In x l.
Proof.
  rewrite existsb_exists. split.
  - intros [y [Hy E]]. apply key_eqb_spec in E; subst; exact Hy.
  - intro H. exists x. split; [exact H|]. apply key_eqb_spec; reflexivity.
Qed.

Lemma string_append_empty (s : string) : (s ++ "")%string = s.
Proof. induction s as [|c s IH]; simpl; [reflexivity|]. rewrite IH; reflexivity. Qed.

Lemma format_title_default (c n : string) :
  format_title "{child_caption} {number}" c n = (c ++ " " ++ n)%string.
Proof. cbn. rewrite string_append_empty. reflexivity. Qed.

(** ** C1: the feedback decision *)

(** C1: [show_message] is true iff [student_results] is non-empty and (the
    hide-feedback-if-attempts-remain option is false or the attempt limit
    is reached); with empty results it is false for every combination of
    the two flags. *)
Theorem show_message_decision_table {A : Type} :
  (forall (student_results : list A) (hide_policy reached : bool),
     show_message student_results hide_policy reached = true <->
     student_results <> [] /\ (hide_policy = false \/ reached = true)) /\
  (forall hide_policy reached, show_message (@nil A) hide_policy reached = false).
Proof.
  split.
  - intros [|x l] [|] [|]; simpl; split; intros H;
      try discriminate; try (destruct H as [H0 _]; congruence);
      intuition congruence.
  - intros [|] [|]; reflexivity.
Qed.

(** ** C3: [step_number] and [lonely_child] *)

(** C3: for a parent whose step-id list [step_ids children] holds N
    distinct steps, the step at position i (0-based) has [step_number]
    i+1, and every n in 1..N is the number of exactly the step at position
    n-1, so [step_number] is a bijection from the steps onto 1..N; a step
    whose normalized id is not in its parent's list makes both
    [step_number] and [lonely_child] raise [ValueError]. *)
Theorem step_number_bijection (is_question : usage_key -> bool)
    (children : list usage_key)
    (Hnodup : NoDup (step_ids is_question children)) :
  let ids := step_ids is_question children in
  (forall (b : step_block) (i : nat),
     siblings b = ids ->
     nth_error ids i = Some (_normalize_id (usage_id b)) ->
     step_number b = Ok (i + 1)) /\
  (forall n, 1 <= n <= length ids ->
     exists k, nth_error ids (n - 1) = Some k /\
       forall b : step_block, siblings b = ids -> _normalize_id (usage_id b) = k ->
         step_number b = Ok n) /\
  (forall (b1 b2 : step_block) (n : nat),
     siblings b1 = ids -> siblings b2 = ids ->
     step_number b1 = Ok n -> step_number b2 = Ok n ->
     _normalize_id (usage_id b1) = _normalize_id (usage_id b2)) /\
  (forall b : step_block,
     siblings b = ids -> ~ In (_normalize_id (usage_id b)) ids ->
     step_number b = Raise (ValueError "x not in list") /\
     lonely_child b = Raise (ValueError lonely_child_message)).
Proof.
  intro ids.
  assert (Hpos : forall (b : step_block) (i : nat),
             siblings b = ids -> nth_error ids i = Some (_normalize_id (usage_id b)) ->
             step_number b = Ok (i + 1)).
  { intros b i Hs Hi. unfold step_number. rewrite Hs.
    rewrite (list_index_nth ids i _ Hnodup Hi). reflexivity. }
  split; [exact Hpos|]. split; [|split].
  - intros n Hn.
    destruct (nth_error ids (n - 1)) as [k|] eqn:Hk.
    + exists k. split; [reflexivity|]. intros b Hs Hb.
      replace n with (n - 1 + 1) by lia. apply Hpos; [exact Hs|]. rewrite Hb; exact Hk.
    + apply nth_error_None in Hk. lia.
  - intros b1 b2 n Hs1 Hs2 H1 H2. unfold step_number in H1, H2.
    rewrite Hs1 in H1. rewrite Hs2 in H2.
    assert (Hgen : forall x l i, list_index x l = Ok i -> nth_error l i = Some x).
    { intros x l. induction l as [|y l IH]; intros i Hi; simpl in Hi; [discriminate|].
      destruct (key_eqb y x) eqn:E.
      - injection Hi as <-. apply key_eqb_spec in E; subst; reflexivity.
      - destruct (list_index x l) as [j|e] eqn:Ej; simpl in Hi; [|discriminate].
        injection Hi as <-. simpl. apply IH; reflexivity. }
    destruct (list_index (_normalize_id (usage_id b1)) ids) as [i1|] eqn:E1;
      simpl in H1; [|discriminate].
    destruct (list_index (_normalize_id (usage_id b2)) ids) as [i2|] eqn:E2;
      simpl in H2; [|discriminate].
    injection H1 as H1. injection H2 as H2.
    assert (i1 = i2) by lia; subst i2.
    apply Hgen in E1. apply Hgen in E2. congruence.
  - intros b Hs Hn. split.
    + unfold step_number. rewrite Hs, (list_index_absent _ _ Hn). reflexivity.
    + unfold lonely_child. rewrite Hs.
      destruct (existsb (key_eqb (_normalize_id (usage_id b))) ids) eqn:E;
        [|reflexivity].
      apply existsb_key_In in E. contradiction.
Qed.

(** Witness: three step children and one non-step child. *)
Lemma step_number_bijection_witness :
  step_number {| usage_id := mcq_key "q2"; display_name := "";
                 siblings := step_ids (fun k => negb (String.eqb (uk_block_id k) "html"))
                               [mcq_key "q1"; mcq_key "html"; mcq_key "q2"; mcq_key "q3"] |}
  = Ok 2.
Proof.
  apply (proj1 (step_number_bijection (fun k => negb (String.eqb (uk_block_id k) "html"))
                  [mcq_key "q1"; mcq_key "html"; mcq_key "q2"; mcq_key "q3"]
                  ltac:(simpl; repeat constructor; simpl; intuition discriminate))
           {| usage_id := mcq_key "q2"; display_name := "";
              siblings := step_ids (fun k => negb (String.eqb (uk_block_id k) "html"))
                            [mcq_key "q1"; mcq_key "html"; mcq_key "q2"; mcq_key "q3"] |}
           1); reflexivity.
Defined.

(** ** C4: the default display title *)

(** C4: with the untranslated catalogue ([ugettext] the identity), a step's
    title is its author-provided [display_name] when that is non-empty;
    otherwise it is exactly ["Question"] when the step is its parent's only
    step, and ["Question k"] (the caption, a space and the decimal [k]) for
    the k-th of N > 1 distinct steps. *)
Theorem display_title_default (b : step_block) :
  (display_name b <> "" ->
   display_name_with_default (fun s => s) b = Ok (display_name b)) /\
  (display_name b = "" -> siblings b = [_normalize_id (usage_id b)] ->
   display_name_with_default (fun s => s) b = Ok CAPTION) /\
  (forall i, display_name b = "" -> NoDup (siblings b) -> 1 < length (siblings b) ->
   nth_error (siblings b) i = Some (_normalize_id (usage_id b)) ->
   display_name_with_default (fun s => s) b
   = Ok (CAPTION ++ " " ++ str_of_nat (i + 1))%string).
Proof.
  unfold display_name_with_default. split; [|split].
  - intro Hne. destruct (String.eqb (display_name b) "") eqn:E.
    + apply String.eqb_eq in E. contradiction.
    + reflexivity.
  - intros He Hs. rewrite He. simpl. unfold lonely_child. rewrite Hs. simpl.
    destruct (key_eqb (_normalize_id (usage_id b)) (_normalize_id (usage_id b))) eqn:E;
      [reflexivity|].
    exfalso. assert (Heq : _normalize_id (usage_id b) = _normalize_id (usage_id b)) by reflexivity.
    apply key_eqb_spec in Heq. congruence.
  - intros i He Hnd Hlen Hi. rewrite He. simpl. unfold lonely_child.
    assert (Hin : In (_normalize_id (usage_id b)) (siblings b)) by (eapply nth_error_In; eassumption).
    apply existsb_key_In in Hin. rewrite Hin.
    destruct (Nat.eqb (length (siblings b)) 1) eqn:E1;
      [apply Nat.eqb_eq in E1; lia|]. simpl.
    unfold step_number. rewrite (list_index_nth _ _ _ Hnd Hi). simpl.
    rewrite format_title_default. reflexivity.
Qed.

(** Witness: the second of three untitled steps, and a lonely step. *)
Lemma display_title_default_witness :
  display_name_with_default (fun s => s)
    {| usage_id := mcq_key "q2"; display_name := "";
       siblings := [_normalize_id (mcq_key "q1"); _normalize_id (mcq_key "q2");
                    _normalize_id (mcq_key "q3")] |} = Ok "Question 2" /\
  display_name_with_default (fun s => s)
    {| usage_id := mcq_key "q1"; display_name := "";
       siblings := [_normalize_id (mcq_key "q1")] |} = Ok "Question".
Proof.
  split.
  - apply (proj2 (proj2 (display_title_default
      {| usage_id := mcq_key "q2"; display_name := "";
         siblings := [_normalize_id (mcq_key "q1"); _normalize_id (mcq_key "q2");
                      _normalize_id (mcq_key "q3")] |})) 1);
      [reflexivity | simpl; repeat constructor; simpl; intuition discriminate
      | simpl; lia | reflexivity].
  - apply (proj1 (proj2 (display_title_default
      {| usage_id := mcq_key "q1"; display_name := "";
         siblings := [_normalize_id (mcq_key "q1")] |}))); reflexivity.
Defined.

(** ** C5: [get_message_content] *)

(** Children that are passed without raising and do not match leave the
    loop's outcome to the children after them. *)
Lemma find_message_skip (hook : option (string -> string)) (message_type : string)
    (pre rest : list message_child) :
  forallb message_child_ok pre = true ->
  forallb (fun c => negb (message_child_matches message_type c)) pre = true ->
  find_message hook message_type (pre ++ rest) = find_message hook message_type rest.
Proof.
  induction pre as [|c pre IH]; simpl; intros Hok Hno; [reflexivity|].
  apply andb_true_iff in Hok as [Hc Hok]. apply andb_true_iff in Hno as [Hm Hno].
  unfold message_child_ok in Hc. unfold message_child_matches in Hm.
  destruct (mc_isinstance c) as [[|]|e]; simpl; try discriminate; [|apply IH; assumption].
  destruct (mc_get_block c) as [[b|]|e]; simpl; try discriminate.
  apply negb_true_iff in Hm. rewrite Hm. apply IH; assumption.
Qed.

(** C5 (as corrected): for a parent whose children before the first
    message child of the requested type are classified without error and,
    when classified as messages, load to a block, [get_message_content]
    returns that child's content, passed through the runtime's
    [replace_jump_to_id_urls] when the hook exists and unchanged (no
    exception) when it is absent.  When all children pass and none matches,
    it returns the table's default wrapped in [<p>...</p>] if [or_default]
    is true, and nothing ([None]) if it is false.  An error raised while
    classifying or loading a child before any match propagates, and a
    message child the runtime returns as [None] raises [AttributeError]. *)
Theorem get_message_content_spec (MESSAGE_TYPES_default : string -> option string)
    (hook : option (string -> string)) (message_type : string) :
  (forall pre c b post or_default,
     forallb message_child_ok pre = true ->
     forallb (fun c' => negb (message_child_matches message_type c')) pre = true ->
     mc_isinstance c = Ok true -> mc_get_block c = Ok (Some b) -> mb_type b = message_type ->
     get_message_content MESSAGE_TYPES_default hook (pre ++ c :: post) message_type or_default
     = Ok (Some (match hook with
                 | Some rewrite => rewrite (mb_content b)
                 | None => mb_content b
                 end))) /\
  (forall children,
     forallb message_child_ok children = true ->
     forallb (fun c => negb (message_child_matches message_type c)) children = true ->
     (forall d, MESSAGE_TYPES_default message_type = Some d ->
        get_message_content MESSAGE_TYPES_default hook children message_type true
        = Ok (Some ("<p>" ++ d ++ "</p>")%string)) /\
     get_message_content MESSAGE_TYPES_default hook children message_type false = Ok None) /\
  (forall pre c post or_default e,
     forallb message_child_ok pre = true ->
     forallb (fun c' => negb (message_child_matches message_type c')) pre = true ->
     (mc_isinstance c = Raise e \/ (mc_isinstance c = Ok true /\ mc_get_block c = Raise e) \/
      (mc_isinstance c = Ok true /\ mc_get_block c = Ok None /\ e = AttributeError "type")) ->
     get_message_content MESSAGE_TYPES_default hook (pre ++ c :: post) message_type or_default
     = Raise e).
Proof.
  split; [|split].
  - intros pre c b post or_default Hok Hno Hi Hb Ht. unfold get_message_content.
    rewrite (find_message_skip hook message_type pre (c :: post) Hok Hno). simpl.
    rewrite Hi. simpl. rewrite Hb. simpl. rewrite Ht, String.eqb_refl.
    destruct hook; reflexivity.
  - intros children Hok Hno. unfold get_message_content.
    rewrite <- (app_nil_r children), (find_message_skip hook message_type children [] Hok Hno).
    simpl. split; [|reflexivity].
    intros d Hd. rewrite Hd. reflexivity.
  - intros pre c post or_default e Hok Hno Hc. unfold get_message_content.
    rewrite (find_message_skip hook message_type pre (c :: post) Hok Hno). simpl.
    destruct Hc as [Hi|[[Hi Hb]|[Hi [Hb ->]]]]; rewrite Hi; simpl; [reflexivity| |];
      rewrite Hb; reflexivity.
Qed.

(** Witness: the jump-to-id test (one matching child, rewrite hook
    installed), a parent without message children, and a message child
    that raises before the match. *)
Lemma get_message_content_spec_witness :
  get_message_content sample_message_defaults (Some test_jump_hook)
    [mkMessageChild (Ok true) (Ok (Some (mkMessageBlock "bogus" "test")))] "bogus" false
    = Ok (Some "replaced-url") /\
  get_message_content sample_message_defaults None [mkMessageChild (Ok false) (Ok None)]
    "completed" true = Ok (Some "<p>Great job!</p>") /\
  get_message_content sample_message_defaults None [mkMessageChild (Ok false) (Ok None)]
    "completed" false = Ok None /\
  get_message_content sample_message_defaults None broken_message_children "completed" false
    = Raise ItemNotFoundError.
Proof.
  split; [|split; [|split]].
  - apply (proj1 (get_message_content_spec sample_message_defaults (Some test_jump_hook) "bogus")
             [] (mkMessageChild (Ok true) (Ok (Some (mkMessageBlock "bogus" "test"))))
             (mkMessageBlock "bogus" "test") [] false); reflexivity.
  - apply (proj1 (proj1 (proj2 (get_message_content_spec sample_message_defaults None "completed"))
             [mkMessageChild (Ok false) (Ok None)] eq_refl eq_refl) "Great job!").
    reflexivity.
  - apply (proj2 (proj1 (proj2 (get_message_content_spec sample_message_defaults None "completed"))
             [mkMessageChild (Ok false) (Ok None)] eq_refl eq_refl)).
  - apply (proj2 (proj2 (get_message_content_spec sample_message_defaults None "completed"))
             [] (mkMessageChild (Ok true) (Raise ItemNotFoundError)) _ false ItemNotFoundError);
      [reflexivity|reflexivity|right; left; split; reflexivity].
Defined.

(** C5 counterexample: a message child whose block is gone comes before a
    matching "completed" message.  The claim expects the second child's
    content; [get_message_content] raises [ItemNotFoundError] instead. *)
Lemma get_message_content_counterexample :
  get_message_content sample_message_defaults None broken_message_children "completed" false
    = Raise ItemNotFoundError /\
  get_message_content sample_message_defaults None broken_message_children "completed" false
    <> Ok (Some "Well done").
Proof. split; [reflexivity|]. vm_compute. discriminate. Qed.

(** ** C8: [build_user_state_data] *)

Section ProjectorProofs.

Variable V : Type.

Lemma nodup_names_spec (l : list string) : nodup_names l = true <-> NoDup l.
Proof.
  induction l as [|x l IH]; simpl.
  - split; [constructor|reflexivity].
  - rewrite andb_true_iff, negb_true_iff, IH. split.
    + intros [Hx Hnd]. constructor; [|exact Hnd]. intro Hin.
      assert (existsb (String.eqb x) l = true) by (apply existsb_exists; exists x;
        split; [exact Hin | apply String.eqb_refl]). congruence.
    + intro H. inversion H as [|? ? Hnot Hnd]; subst. split; [|exact Hnd].
      destruct (existsb (String.eqb x) l) eqn:E; [|reflexivity].
      apply existsb_exists in E as [y [Hy Ey]]. apply String.eqb_eq in Ey; subst.
      contradiction.
Qed.

Lemma dict_set_fresh {A : Type} (d : list (string * A)) (k : string) (v : A) :
  ~ In k (map fst d) -> dict_set d k v = d ++ [(k, v)].
Proof.
  induction d as [|[k' v'] d IH]; intro Hn; simpl; [reflexivity|].
  destruct (String.eqb k' k) eqn:E.
  - apply String.eqb_eq in E; subst. exfalso. apply Hn. left; reflexivity.
  - rewrite IH; [reflexivity|]. intro Hin. apply Hn. right; exact Hin.
Qed.

Lemma dict_set_keys {A : Type} (d : list (string * A)) (k : string) (v : A) :
  forall x, In x (map fst (dict_set d k v)) <-> x = k \/ In x (map fst d).
Proof.
  induction d as [|[k' v'] d IH]; intro x; simpl.
  - intuition.
  - destruct (String.eqb k' k) eqn:E; simpl.
    + apply String.eqb_eq in E; subst. intuition.
    + rewrite IH. intuition.
Qed.

Lemma dict_set_nodup {A : Type} (d : list (string * A)) (k : string) (v : A) :
  NoDup (map fst d) -> NoDup (map fst (dict_set d k v)).
Proof.
  induction d as [|[k' v'] d IH]; intro Hnd; simpl.
  - repeat constructor; intros [].
  - inversion Hnd as [|? ? Hnot Hnd']; subst.
    destruct (String.eqb k' k) eqn:E; simpl.
    + apply String.eqb_eq in E; subst. constructor; assumption.
    + constructor; [|apply IH; exact Hnd'].
      rewrite dict_set_keys. intros [->|Hin]; [rewrite String.eqb_refl in E; discriminate|].
      contradiction.
Qed.

Lemma dict_set_In {A : Type} (d : list (string * A)) (k : string) (v : A) :
  NoDup (map fst d) ->
  forall k' v', In (k', v') (dict_set d k v) <->
                (k' = k /\ v' = v) \/ (k' <> k /\ In (k', v') d).
Proof.
  induction d as [|[k0 v0] d IH]; intros Hnd k' v'; simpl.
  - split; [intros [H|[]]; injection H as <- <-; left; split; reflexivity|].
    intros [[-> ->]|[_ []]]; left; reflexivity.
  - inversion Hnd as [|? ? Hnot Hnd']; subst.
    destruct (String.eqb k0 k) eqn:E; simpl.
    + apply String.eqb_eq in E; subst k0. split.
      * intros [H|H]; [injection H as <- <-; left; split; reflexivity|].
        right. split; [|right; exact H].
        intros ->. apply Hnot. apply (in_map fst) in H. exact H.
      * intros [[-> ->]|[Hne [H|H]]]; [left; reflexivity| |right; exact H].
        injection H as <- <-. contradiction.
    + rewrite (IH Hnd'). split.
      * intros [H|[[-> ->]|[Hne H]]].
        -- injection H as <- <-. right. split; [|left; reflexivity].
           intros ->. rewrite String.eqb_refl in E. discriminate.
        -- left. split; reflexivity.
        -- right. split; [exact Hne|right; exact H].
      * intros [[-> ->]|[Hne [H|H]]].
        -- right. left. split; reflexivity.
        -- left. exact H.
        -- right. right. split; [exact Hne|exact H].
Qed.

(** The field part, [project_fields], as a fold from any start dict. *)

Lemma selected_bool (allow : list string) (f : field V) :
  in_include_scopes (f_scope f) && existsb (String.eqb (f_name f)) allow = true <->
  selected allow f.
Proof.
  unfold selected. rewrite andb_true_iff, existsb_exists.
  split.
  - intros [Hs [y [Hy Ey]]]. apply String.eqb_eq in Ey; subst. split; [|exact Hy].
    destruct (f_scope f); simpl in *; try discriminate; tauto.
  - intros [Hs Ha]. split.
    + simpl in Hs. destruct Hs as [<-|[<-|[<-|[]]]]; reflexivity.
    + exists (f_name f). split; [exact Ha|apply String.eqb_refl].
Qed.

Lemma fields_loop_spec (fields : list (field V)) (allow : list string)
    (transforms : list (string * (V -> res V))) :
  NoDup (map (@f_name V) fields) ->
  forall acc out, NoDup (map fst acc) ->
  (forall f, In f fields -> ~ In (f_name f) (map fst acc)) ->
  fields_loop V allow transforms fields acc = Ok out ->
  NoDup (map fst out) /\
  forall k v, In (k, v) out <->
    In (k, v) acc \/
    exists f w, In f fields /\ selected allow f /\ k = f_name f /\
                transformer V transforms k (f_value f) = Ok w /\ v = PVal w.
Proof.
  induction fields as [|f fields IH]; intros Hnd acc out Hacc Hfresh Hloop; simpl in Hloop.
  - injection Hloop as <-. split; [exact Hacc|]. intros k v. split; [intro H; left; exact H|].
    intros [H|[f [w [[] _]]]]. exact H.
  - inversion Hnd as [|? ? Hnot Hnd']; subst.
    unfold field_step in Hloop.
    destruct (in_include_scopes (f_scope f) && existsb (String.eqb (f_name f)) allow) eqn:Esel.
    + assert (Hsel : selected allow f) by (apply selected_bool; exact Esel).
      destruct (transformer V transforms (f_name f) (f_value f)) as [w0|e] eqn:Ew;
        simpl in Hloop; [|discriminate].
      set (acc' := dict_set acc (f_name f) (PVal w0)) in Hloop.
      assert (Hacc' : NoDup (map fst acc')) by (apply dict_set_nodup; exact Hacc).
      assert (Hfresh' : forall g, In g fields -> ~ In (f_name g) (map fst acc')).
      { intros g Hg. unfold acc'. rewrite dict_set_keys. intros [Heq|Hin].
        - apply Hnot. rewrite <- Heq. apply in_map. exact Hg.
        - apply (Hfresh g); [right; exact Hg|exact Hin]. }
      destruct (IH Hnd' acc' out Hacc' Hfresh' Hloop) as [Hnd_out Hin_out].
      split; [exact Hnd_out|]. intros k v. rewrite Hin_out. unfold acc'.
      rewrite (dict_set_In _ _ _ Hacc). split.
      * intros [[[-> ->]|[_ H]]|[g [w [Hg [Hgs [-> [Hw ->]]]]]]].
        -- right. exists f, w0. split; [left; reflexivity|]. split; [exact Hsel|].
           split; [reflexivity|]. split; [exact Ew|reflexivity].
        -- left. exact H.
        -- right. exists g, w. split; [right; exact Hg|]. split; [exact Hgs|].
           split; [reflexivity|]. split; [exact Hw|reflexivity].
      * intros [H|[g [w [[<-|Hg] [Hgs [-> [Hw ->]]]]]]].
        -- left. right. split; [|exact H]. intros ->.
           apply (Hfresh f); [left; reflexivity|]. apply (in_map fst) in H. exact H.
        -- rewrite Ew in Hw. injection Hw as <-. left. left. split; reflexivity.
        -- right. exists g, w. split; [exact Hg|]. split; [exact Hgs|].
           split; [reflexivity|]. split; [exact Hw|reflexivity].
    + simpl in Hloop.
      assert (Hfresh' : forall g, In g fields -> ~ In (f_name g) (map fst acc))
        by (intros g Hg; apply Hfresh; right; exact Hg).
      destruct (IH Hnd' acc out Hacc Hfresh' Hloop) as [Hnd_out Hin_out].
      split; [exact Hnd_out|]. intros k v. rewrite Hin_out. split.
      * intros [H|[g [w [Hg Hrest]]]]; [left; exact H|]. right. exists g, w.
        split; [right; exact Hg|exact Hrest].
      * intros [H|[g [w [[<-|Hg] Hrest]]]]; [left; exact H| |].
        -- exfalso. destruct Hrest as [Hgs _]. apply selected_bool in Hgs. congruence.
        -- right. exists g, w. split; [exact Hg|exact Hrest].
Qed.

Lemma build_user_state_data_eq fields allow transforms has_children children :
  build_user_state_data V (Node fields allow transforms has_children children) =
  (result <- project_fields V fields allow transforms ;;
   if has_children then
     components <- build_children_loop (build_user_state_data V) children [] ;;
     Ok (dict_set result NESTED_BLOCKS_KEY (PDict components))
   else Ok result).
Proof.
  simpl. destruct (project_fields V fields allow transforms) as [result|e]; [|reflexivity].
  simpl. destruct has_children; [|reflexivity]. f_equal.
  (* the inner loop is [build_children_loop] unfolded *)
  generalize (@nil (string * proj V)). induction children as [|[c l] cs IH]; intro acc;
    [reflexivity|]. simpl. destruct l; try reflexivity; try apply IH.
  destruct (build_user_state_data V n); simpl; [apply IH|reflexivity].
Qed.

Lemma node_ok_children (fields : list (field V)) allow transforms children :
  node_ok (Node fields allow transforms true children) = true ->
  NoDup (map fst children) /\
  forall c l, In (c, l) children ->
    match l with LRaise _ => False | LState m => node_ok m = true | _ => True end.
Proof.
  simpl. rewrite !andb_true_iff, !nodup_names_spec. intros [_ [Hc Hgo]].
  split; [exact Hc|].
  clear Hc. induction children as [|[c0 l0] cs IH]; intros c l Hin; [destruct Hin|].
  simpl in Hgo. rewrite andb_true_iff in Hgo. destruct Hgo as [Hl Hgo].
  destruct Hin as [Heq|Hin].
  - injection Heq as -> ->. destruct l; [discriminate|exact I|exact I|exact Hl].
  - exact (IH Hgo c l Hin).
Qed.

Lemma node_ok_fields fields allow transforms has_children children :
  node_ok (Node fields allow transforms has_children children) = true ->
  NoDup (map (@f_name V) fields) /\ exists r, project_fields V fields allow transforms = Ok r.
Proof.
  simpl. rewrite !andb_true_iff, nodup_names_spec. intros [[H Hp] _]. split; [exact H|].
  destruct (project_fields V fields allow transforms) as [r|e]; [exists r; reflexivity|discriminate].
Qed.

Lemma build_children_loop_spec (build : node V -> res (list (string * proj V)))
    (cs : list (string * lookup V)) :
  NoDup (map fst cs) ->
  (forall c e, ~ In (c, LRaise e) cs) ->
  (forall c m, In (c, LState m) cs -> exists pm, build m = Ok pm) ->
  forall acc, NoDup (map fst acc) -> (forall c, In c (map fst cs) -> ~ In c (map fst acc)) ->
  exists out, build_children_loop build cs acc = Ok out /\ NoDup (map fst out) /\
    forall c p, In (c, p) out <->
      In (c, p) acc \/ exists m pm, In (c, LState m) cs /\ build m = Ok pm /\ p = PDict pm.
Proof.
  induction cs as [|[c0 l0] cs IH]; intros Hnd Hnr Hb acc Hacc Hfresh.
  - exists acc. split; [reflexivity|]. split; [exact Hacc|].
    intros c p. split; [intro H; left; exact H|]. intros [H|[m [pm [[] _]]]]. exact H.
  - inversion Hnd as [|? ? Hnot Hnd']; subst.
    assert (Hnr' : forall c e, ~ In (c, LRaise e) cs) by (intros c e H; apply (Hnr c e); right; exact H).
    assert (Hb' : forall c m, In (c, LState m) cs -> exists pm, build m = Ok pm)
      by (intros c m H; apply (Hb c m); right; exact H).
    assert (Hfresh' : forall c, In c (map fst cs) -> ~ In c (map fst acc))
      by (intros c H; apply Hfresh; right; exact H).
    destruct l0 as [e| | |m]; simpl.
    + exfalso. apply (Hnr c0 e). left; reflexivity.
    + destruct (IH Hnd' Hnr' Hb' acc Hacc Hfresh') as [out [Hout [Hndo Hino]]].
      exists out. split; [exact Hout|]. split; [exact Hndo|]. intros c p. rewrite Hino.
      split; intros [H|[m [pm [Hm Hrest]]]]; try (left; exact H).
      * right. exists m, pm. split; [right; exact Hm|exact Hrest].
      * destruct Hm as [Heq|Hm]; [discriminate|]. right. exists m, pm. split; [exact Hm|exact Hrest].
    + destruct (IH Hnd' Hnr' Hb' acc Hacc Hfresh') as [out [Hout [Hndo Hino]]].
      exists out. split; [exact Hout|]. split; [exact Hndo|]. intros c p. rewrite Hino.
      split; intros [H|[m [pm [Hm Hrest]]]]; try (left; exact H).
      * right. exists m, pm. split; [right; exact Hm|exact Hrest].
      * destruct Hm as [Heq|Hm]; [discriminate|]. right. exists m, pm. split; [exact Hm|exact Hrest].
    + destruct (Hb c0 m (or_introl eq_refl)) as [pm0 Hpm0]. rewrite Hpm0. simpl.
      set (acc' := dict_set acc c0 (PDict pm0)).
      assert (Hacc' : NoDup (map fst acc')) by (apply dict_set_nodup; exact Hacc).
      assert (Hfresh'' : forall c, In c (map fst cs) -> ~ In c (map fst acc')).
      { intros c Hc. unfold acc'. rewrite dict_set_keys. intros [->|Hin].
        - apply Hnot. exact Hc.
        - apply (Hfresh' c Hc Hin). }
      destruct (IH Hnd' Hnr' Hb' acc' Hacc' Hfresh'') as [out [Hout [Hndo Hino]]].
      exists out. split; [exact Hout|]. split; [exact Hndo|]. intros c p. rewrite Hino.
      unfold acc'. rewrite (dict_set_In _ _ _ Hacc). split.
      * intros [[[-> ->]|[_ H]]|[m' [pm [Hm Hrest]]]].
        -- right. exists m, pm0. split; [left; reflexivity|]. split; [exact Hpm0|reflexivity].
        -- left. exact H.
        -- right. exists m', pm. split; [right; exact Hm|exact Hrest].
      * intros [H|[m' [pm [[Heq|Hm] [Hbm ->]]]]].
        -- left. right. split; [|exact H]. intros ->.
           apply (Hfresh c0); [left; reflexivity|]. apply (in_map fst) in H. exact H.
        -- injection Heq as -> ->. rewrite Hpm0 in Hbm. injection Hbm as ->.
           left. left. split; reflexivity.
        -- right. exists m', pm. split; [exact Hm|]. split; [exact Hbm|reflexivity].
Qed.

Lemma build_user_state_data_ok (n : node V) :
  node_ok n = true -> exists r, build_user_state_data V n = Ok r.
Proof.
  induction n as [fields allow transforms has_children children IHc] using node_ind'.
  intro Hok. rewrite build_user_state_data_eq.
  destruct (node_ok_fields _ _ _ _ _ Hok) as [_ [result Hr]]. rewrite Hr. simpl.
  destruct has_children; [|eexists; reflexivity].
  destruct (node_ok_children _ _ _ _ Hok) as [Hnd Hch].
  rewrite Forall_forall in IHc.
  destruct (build_children_loop_spec (build_user_state_data V) children Hnd) with (acc := @nil (string * proj V))
    as [out [Hout _]].
  - intros c e Hin. exact (Hch c _ Hin).
  - intros c m Hin. apply (IHc (c, LState m) Hin). exact (Hch c _ Hin).
  - constructor.
  - intros c _ [].
  - rewrite Hout. eexists; reflexivity.
Qed.

End ProjectorProofs.

(** C8 (as corrected): for a node whose field names and child ids are
    distinct, whose registered transforms return normally on its selected
    field values, and whose child lookups and children's projections do not
    raise ([node_ok]), [build_user_state_data] returns a dict whose entries
    other than the reserved key "components" (of a node with children) are
    exactly the fields with scope user_state, user_info or preferences whose
    name is in [USER_STATE_FIELDS], each value passed through its transform
    (identity by default); for a node with children the reserved key holds
    a dict from child id to that child's projection containing exactly the
    children whose lookup yields a block offering [build_user_state_data];
    children looked up as [None] or as blocks without the method are left
    out without error. *)
Theorem build_user_state_data_spec {V : Type} (fields : list (field V))
    (allow : list string) (transforms : list (string * (V -> res V)))
    (has_children : bool) (children : list (string * lookup V))
    (Hok : node_ok (Node fields allow transforms has_children children) = true) :
  exists r, build_user_state_data V (Node fields allow transforms has_children children) = Ok r /\
    NoDup (map fst r) /\
    (forall k v, has_children = false \/ k <> NESTED_BLOCKS_KEY ->
       (In (k, v) r <->
        exists f w, In f fields /\ selected allow f /\ k = f_name f /\
                    transformer V transforms k (f_value f) = Ok w /\ v = PVal w)) /\
    (has_children = true ->
     exists components, In (NESTED_BLOCKS_KEY, PDict components) r /\
       NoDup (map fst components) /\
       forall c p, In (c, p) components <->
         exists m pm, In (c, LState m) children /\
                      build_user_state_data V m = Ok pm /\ p = PDict pm).
Proof.
  destruct (node_ok_fields V _ _ _ _ _ Hok) as [Hfn [result Hr]].
  destruct (fields_loop_spec V fields allow transforms Hfn [] result ltac:(constructor)
              ltac:(intros f _ []) Hr) as [Hndf Hinf].
  assert (Hinf' : forall k v, In (k, v) result <->
            exists f w, In f fields /\ selected allow f /\ k = f_name f /\
                        transformer V transforms k (f_value f) = Ok w /\ v = PVal w).
  { intros k v. rewrite Hinf. split; [intros [[]|H]; exact H|intro H; right; exact H]. }
  rewrite build_user_state_data_eq, Hr. simpl.
  destruct has_children.
  - destruct (node_ok_children V _ _ _ _ Hok) as [Hnd Hch].
    destruct (build_children_loop_spec V (build_user_state_data V) children Hnd) with (acc := @nil (string * proj V))
      as [out [Hout [Hndo Hino]]].
    + intros c e Hin. exact (Hch c _ Hin).
    + intros c m Hin. apply build_user_state_data_ok. exact (Hch c _ Hin).
    + constructor.
    + intros c _ [].
    + rewrite Hout. simpl. eexists. split; [reflexivity|].
      split; [apply dict_set_nodup; exact Hndf|]. split.
      * intros k v [Hf|Hk]; [discriminate|]. rewrite (dict_set_In _ _ _ Hndf). rewrite <- Hinf'.
        split; [intros [[-> _]|[_ H]]; [contradiction|exact H]|].
        intro H. right. split; [exact Hk|exact H].
      * intros _. exists out. split; [|split; [exact Hndo|]].
        -- rewrite (dict_set_In _ _ _ Hndf). left. split; reflexivity.
        -- intros c p. rewrite Hino. split; [intros [[]|H]; exact H|intro H; right; exact H].
  - eexists. split; [reflexivity|]. split; [exact Hndf|]. split.
    + intros k v _. apply Hinf'.
    + intro H; discriminate.
Qed.

(** Witness: the sample mentoring node. *)
Lemma build_user_state_data_spec_witness :
  node_ok sample_mentoring_node = true /\
  exists r, build_user_state_data nat sample_mentoring_node = Ok r /\ NoDup (map fst r).
Proof.
  split; [reflexivity|].
  destruct (build_user_state_data_spec
              [mkField "num_attempts" scope_user_state 2; mkField "attempted" scope_user_state 1;
               mkField "display_name" scope_content 0]
              ["num_attempts"; "display_name"] [("num_attempts", fun v => Ok (v + 10))] true
              [("block-v1:mcq", LState sample_step_node); ("block-v1:html", LPlain);
               ("block-v1:gone", LNone)]
              eq_refl) as [r [Hr [Hnd _]]].
  exists r. split; [exact Hr|exact Hnd].
Defined.

(** C8 counterexample: a child that resolves (to a block without
    [build_user_state_data]) is missing from the nested mapping, and an
    allow-listed user-state field named "components" is replaced by it. *)
Lemma build_user_state_data_counterexample :
  build_user_state_data nat colliding_node = Ok [("components", PDict [])] /\
  ~ In ("components", PVal 7) [("components", @PDict nat [])].
Proof.
  split; [reflexivity|]. intros [H|[]]. discriminate.
Qed.

(** ** C6 and C10: [scan_for_blocks] *)

Lemma scan_for_blocks_collect (block_types : list block_class) (t : tree) :
  forall acc, scan_for_blocks block_types t acc = (Ok tt, acc ++ collect block_types t).
Proof.
  induction t as [b cs IH] using tree_ind'. intro acc. simpl.
  destruct (isinstance b block_types); [reflexivity|].
  destruct (xb_has_children b); [|rewrite app_nil_r; reflexivity].
  revert acc. induction cs as [|c cs IHcs]; intro acc; simpl.
  - rewrite app_nil_r. reflexivity.
  - inversion IH as [|? ? Hc Hcs]; subst.
    destruct c as [k|t']; unfold st_bind, try_item_not_found; simpl.
    + apply IHcs. exact Hcs.
    + rewrite Hc. rewrite (IHcs Hcs). rewrite app_assoc. reflexivity.
Qed.

Lemma NoDup_app_disjoint {A : Type} (l1 l2 : list A) (a : A) :
  NoDup (l1 ++ l2) -> In a l1 -> In a l2 -> False.
Proof.
  induction l1 as [|x l1 IH]; simpl; intros Hnd H1 H2; [exact H1|].
  inversion Hnd as [|? ? Hnot Hnd']; subst. destruct H1 as [->|H1].
  - apply Hnot. apply in_or_app. right; exact H2.
  - exact (IH Hnd' H1 H2).
Qed.

(** Two members of a list that share an element of a per-member list whose
    concatenation has distinct keys are the same member. *)
Lemma flat_map_same_member {A B K : Type} (key : B -> K) (f : A -> list B) (l : list A) :
  NoDup (map key (flat_map f l)) ->
  forall x x' y, In x l -> In x' l -> In y (f x) -> In y (f x') -> x = x'.
Proof.
  induction l as [|z l IH]; simpl; intros Hnd x x' y Hx Hx' Hy Hy'; [destruct Hx|].
  rewrite map_app in Hnd.
  destruct Hx as [<-|Hx]; destruct Hx' as [<-|Hx']; try reflexivity.
  - exfalso. apply (NoDup_app_disjoint _ _ (key y) Hnd); apply in_map; [exact Hy|].
    apply in_flat_map. exists x'. split; assumption.
  - exfalso. apply (NoDup_app_disjoint _ _ (key y) Hnd); apply in_map; [exact Hy'|].
    apply in_flat_map. exists x. split; assumption.
  - exact (IH (NoDup_app_remove_l _ _ Hnd) x x' y Hx Hx' Hy Hy').
Qed.

Lemma NoDup_flat_map_sub {A B K : Type} (key : B -> K) (f g : A -> list B) (l : list A) :
  NoDup (map key (flat_map f l)) ->
  (forall x, In x l -> incl (g x) (f x)) ->
  (forall x, In x l -> NoDup (map key (g x))) ->
  NoDup (map key (flat_map g l)).
Proof.
  induction l as [|z l IH]; simpl; intros Hnd Hinc Hg; [constructor|].
  rewrite map_app in *. apply NoDup_app.
  - apply Hg. left; reflexivity.
  - apply IH; [exact (NoDup_app_remove_l _ _ Hnd)| |];
      intros x Hx; [apply Hinc|apply Hg]; right; exact Hx.
  - intros k Hk1 Hk2. apply in_map_iff in Hk1 as [y1 [<- Hy1]].
    apply in_map_iff in Hk2 as [y2 [Hkey Hy2]].
    apply in_flat_map in Hy2 as [x [Hx Hy2]].
    apply (NoDup_app_disjoint _ _ (key y1) Hnd).
    + apply in_map. apply (Hinc z (or_introl eq_refl)). exact Hy1.
    + rewrite <- Hkey. apply in_map. apply in_flat_map. exists x. split; [exact Hx|].
      apply (Hinc x (or_intror Hx)). exact Hy2.
Qed.

Lemma collect_incl (block_types : list block_class) (t : tree) :
  incl (collect block_types t) (tree_blocks t).
Proof.
  induction t as [b cs IH] using tree_ind'. simpl.
  destruct (isinstance b block_types); [intros y [<-|[]]; left; reflexivity|].
  destruct (xb_has_children b); [|intros y []].
  intros y Hy. right. apply in_flat_map in Hy as [c [Hc Hy]]. apply in_flat_map.
  exists c. split; [exact Hc|]. rewrite Forall_forall in IH. specialize (IH c Hc).
  destruct c as [k|t']; [destruct Hy|]. exact (IH y Hy).
Qed.

Lemma subtree_blocks_incl (t : tree) :
  forall s, In s (subtrees t) -> incl (tree_blocks s) (tree_blocks t).
Proof.
  induction t as [b cs IH] using tree_ind'. intros s [<-|Hs]; [intros y Hy; exact Hy|].
  apply in_flat_map in Hs as [c [Hc Hs]]. rewrite Forall_forall in IH. specialize (IH c Hc).
  destruct c as [k|t']; [destruct Hs|]. intros y Hy. simpl. right.
  apply in_flat_map. exists (Found t'). split; [exact Hc|]. exact (IH s Hs y Hy).
Qed.

Lemma NoDup_flat_map_member {A B K : Type} (key : B -> K) (f : A -> list B) (l : list A) :
  NoDup (map key (flat_map f l)) -> forall x, In x l -> NoDup (map key (f x)).
Proof.
  induction l as [|z l IH]; simpl; intros Hnd x Hx; [destruct Hx|].
  rewrite map_app in Hnd. destruct Hx as [<-|Hx].
  - exact (NoDup_app_remove_r _ _ Hnd).
  - exact (IH (NoDup_app_remove_l _ _ Hnd) x Hx).
Qed.

Lemma collect_walk_reaches (block_types : list block_class) (t : tree) :
  forall x, In x (collect block_types t) <-> walk_reaches block_types t x.
Proof.
  induction t as [b cs IH] using tree_ind'. intro x. simpl.
  rewrite Forall_forall in IH.
  destruct (isinstance b block_types) eqn:Ei.
  - split.
    + intros [<-|[]]. apply reach_here. exact Ei.
    + intro H. inversion H; subst; [left; reflexivity|congruence].
  - destruct (xb_has_children b) eqn:Eh.
    + rewrite in_flat_map. split.
      * intros [c [Hc Hx]]. destruct c as [k|t']; [destruct Hx|].
        apply (reach_child _ b cs t' x Ei Eh Hc). apply (IH _ Hc). exact Hx.
      * intro H. inversion H; subst; [congruence|].
        exists (Found t). split; [assumption|]. apply (IH _ H4). assumption.
    + split; [intros []|]. intro H. inversion H; subst; congruence.
Qed.

(** C6: [scan_for_blocks] never raises, whatever children fail to resolve;
    under a non-matching block with children an unresolvable child
    contributes nothing and every resolved child contributes exactly what
    scanning it alone collects, in child order; and a block is collected iff
    the walk reaches it: it matches and is found through resolved children
    of non-matching blocks with children. *)
Theorem scan_for_blocks_tolerates_missing (block_types : list block_class) :
  (forall t acc, fst (scan_for_blocks block_types t acc) = Ok tt) /\
  (forall b cs acc,
     isinstance b block_types = false -> xb_has_children b = true ->
     snd (scan_for_blocks block_types (TNode b cs) acc) =
     acc ++ flat_map (fun c => match c with
                               | Missing _ => []
                               | Found t => snd (scan_for_blocks block_types t [])
                               end) cs) /\
  (forall t x, In x (snd (scan_for_blocks block_types t [])) <-> walk_reaches block_types t x).
Proof.
  split; [|split].
  - intros t acc. rewrite scan_for_blocks_collect. reflexivity.
  - intros b cs acc Ei Eh. rewrite scan_for_blocks_collect. simpl. rewrite Ei, Eh.
    f_equal. apply flat_map_ext. intros [k|t]; [reflexivity|].
    rewrite scan_for_blocks_collect. reflexivity.
  - intros t x. rewrite scan_for_blocks_collect. simpl. apply collect_walk_reaches.
Qed.

(** C10: a matching block is appended and its children are not scanned;
    and in a tree whose block ids are distinct, the collected blocks have
    distinct ids and no collected block lies below any matching block of
    the tree (so none is a descendant of another collected block). *)
Theorem scan_for_blocks_no_nesting (block_types : list block_class) (t : tree)
    (Hnd : NoDup (map xb_usage_id (tree_blocks t))) :
  (forall b cs acc, isinstance b block_types = true ->
     scan_for_blocks block_types (TNode b cs) acc = (Ok tt, acc ++ [b])) /\
  NoDup (map xb_usage_id (snd (scan_for_blocks block_types t []))) /\
  (forall s, In s (subtrees t) -> isinstance (root_block s) block_types = true ->
     forall y, In y (snd (scan_for_blocks block_types t [])) -> ~ In y (desc_blocks s)).
Proof.
  rewrite scan_for_blocks_collect. simpl. split; [|split].
  - intros b cs acc Ei. simpl. rewrite Ei. reflexivity.
  - clear -Hnd. induction t as [b cs IH] using tree_ind'. simpl.
    rewrite Forall_forall in IH. simpl in Hnd. inversion Hnd as [|? ? Hnot Hnd']; subst.
    destruct (isinstance b block_types); [repeat constructor; intros []|].
    destruct (xb_has_children b); [|constructor].
    apply (NoDup_flat_map_sub xb_usage_id
             (fun c => match c with Missing _ => [] | Found t' => tree_blocks t' end));
      [exact Hnd'| |].
    + intros [k|t'] Hc; [intros y []|]. apply collect_incl.
    + intros [k|t'] Hc; [constructor|]. apply (IH _ Hc).
      exact (NoDup_flat_map_member _ _ _ Hnd' _ Hc).
  - revert Hnd. induction t as [b cs IH] using tree_ind'. intros Hnd s Hs Hroot y Hy Hyd.
    rewrite Forall_forall in IH. simpl in Hnd. inversion Hnd as [|? ? Hnot Hnd']; subst.
    set (child_blocks := fun c => match c with Missing _ => [] | Found t' => tree_blocks t' end).
    assert (Hsub : forall c, In c cs -> In s (match c with Missing _ => [] | Found t' => subtrees t' end) ->
                   incl (desc_blocks s) (child_blocks c)).
    { intros [k|t'] Hc Hs'; [destruct Hs'|]. intros z Hz. simpl.
      apply (subtree_blocks_incl t' s Hs'). destruct s. right. exact Hz. }
    simpl in Hy. destruct (isinstance b block_types) eqn:Ei.
    + destruct Hy as [Hyb|[]]. subst y. apply Hnot. apply in_map.
      destruct Hs as [Hst|Hs]; [subst s; exact Hyd|].
      apply in_flat_map in Hs as [c [Hc Hs]]. apply in_flat_map. exists c.
      split; [exact Hc|]. exact (Hsub c Hc Hs b Hyd).
    + destruct (xb_has_children b); [|destruct Hy].
      destruct Hs as [<-|Hs]; [simpl in Hroot; congruence|].
      apply in_flat_map in Hs as [ck [Hck Hs]].
      apply in_flat_map in Hy as [ci [Hci Hy]].
      destruct ci as [ki|ti]; [destruct Hy|].
      assert (Hyi : In y (child_blocks (Found ti))) by (exact (collect_incl block_types ti y Hy)).
      pose proof (Hsub ck Hck Hs y Hyd) as Hyk.
      pose proof (flat_map_same_member xb_usage_id child_blocks cs Hnd'
                    (Found ti) ck y Hci Hck Hyi Hyk) as Heq. subst ck.
      apply (IH _ Hci (NoDup_flat_map_member _ _ _ Hnd' _ Hci) s Hs Hroot y Hy Hyd).
Qed.

(** ** C7: [_get_context] *)

Lemma dict_get_set {A : Type} (d : list (string * A)) (k k' : string) (v : A) :
  dict_get (dict_set d k v) k' = if String.eqb k k' then Some v else dict_get d k'.
Proof.
  induction d as [|[k0 v0] d IH]; simpl.
  - destruct (String.eqb k k'); reflexivity.
  - destruct (String.eqb k0 k) eqn:E0; simpl.
    + apply String.eqb_eq in E0; subst k0. destruct (String.eqb k k'); reflexivity.
    + destruct (String.eqb k0 k') eqn:E1.
      * apply String.eqb_eq in E1; subst k0.
        destruct (String.eqb k k') eqn:E2; [|reflexivity].
        apply String.eqb_eq in E2; subst. rewrite String.eqb_refl in E0. discriminate.
      * rewrite IH. reflexivity.
Qed.

Lemma find_app {A : Type} (f : A -> bool) (l1 l2 : list A) :
  find f (l1 ++ l2) = match find f l1 with Some x => Some x | None => find f l2 end.
Proof.
  induction l1 as [|x l1 IH]; simpl; [reflexivity|]. destruct (f x); [reflexivity|exact IH].
Qed.

Lemma get_context_loop_fold (b : xblock) :
  (forall x, In x (parent_chain b) -> exists n, xb_display_name x = Ok n) ->
  forall d, get_context_loop b d = Ok (fold_left record_title (parent_chain b) d).
Proof.
  induction b as [uid cls ty dn q hc ch p IH] using xblock_ind_opt; intros Hok d.
  destruct (Hok _ (or_introl eq_refl)) as [n Hn]. simpl in Hn. subst dn.
  destruct p as [p|]; simpl.
  - rewrite IH; [reflexivity|]. intros x Hx. apply Hok. right. exact Hx.
  - reflexivity.
Qed.

Lemma fold_record_title_get (l : list xblock) (d : list (string * string)) (k : string) :
  dict_get (fold_left record_title l d) k =
  match find (fun x => String.eqb (xb_block_type x) k) (rev l) with
  | Some x => Some (title_of x)
  | None => dict_get d k
  end.
Proof.
  revert d. induction l as [|x l IH]; intro d; simpl; [reflexivity|].
  rewrite IH, find_app. simpl. unfold record_title. rewrite dict_get_set.
  destruct (find (fun y => String.eqb (xb_block_type y) k) (rev l)); [reflexivity|].
  destruct (String.eqb (xb_block_type x) k); reflexivity.
Qed.

(** C7 (as corrected): when the display titles on the block's parent chain
    evaluate, [_get_context] raises nothing and returns, for chapter,
    sequential and vertical, the title of the block of that type farthest
    up the chain (the one closest to the root, the block itself included),
    or the empty string when the chain has no block of that type. *)
Theorem get_context_farthest (b : xblock)
    (Hok : forall x, In x (parent_chain b) -> exists n, xb_display_name x = Ok n) :
  _get_context b = Ok (farthest_title b "chapter", farthest_title b "sequential",
                       farthest_title b "vertical").
Proof.
  unfold _get_context. rewrite (get_context_loop_fold b Hok []). simpl.
  unfold dict_get_default, farthest_title. rewrite !fold_record_title_get. simpl.
  destruct (find (fun x => String.eqb (xb_block_type x) "chapter") (rev (parent_chain b)));
  destruct (find (fun x => String.eqb (xb_block_type x) "sequential") (rev (parent_chain b)));
  destruct (find (fun x => String.eqb (xb_block_type x) "vertical") (rev (parent_chain b)));
  reflexivity.
Qed.

(** ** The export task *)

Section ExportProofs.

Variable CourseKey_from_string : string -> option string.
Variable get_items : string -> string -> list (option xblock).
Variable runtime_tree : xblock -> tree.
Variable unicode_key : usage_key -> string.
Variable get_all_submissions : string -> string -> string -> list submission.
Variable get_submissions_limit_1 : option string -> string -> string -> string -> list submission.
Variable user_by_anonymous_id : option string -> option string.
Variable get_item : usage_key -> res choice_block.
Variable time_start time_end : nat.
Variable filename_of : nat -> string.

Local Abbreviation export :=
  (export_data CourseKey_from_string get_items runtime_tree unicode_key get_all_submissions
               get_submissions_limit_1 user_by_anonymous_id get_item time_start time_end
               filename_of).
Local Abbreviation extract :=
  (_extract_data unicode_key get_all_submissions get_submissions_limit_1
                 user_by_anonymous_id get_item).
Local Abbreviation rows_of :=
  (collect_rows unicode_key get_all_submissions get_submissions_limit_1
                user_by_anonymous_id get_item).
Local Abbreviation fetch :=
  (_get_submissions unicode_key get_all_submissions get_submissions_limit_1).
Local Abbreviation resolve := (resolve_submission user_by_anonymous_id get_item).

Lemma collect_rows_prefix (ck : string) (blocks : list xblock) (user_id : option string)
    (m : string) (acc rows : list (list string)) :
  rows_of ck blocks user_id m acc = Ok rows -> exists rest, rows = acc ++ rest.
Proof.
  revert acc. induction blocks as [|b blocks IH]; intros acc E; simpl in E.
  - injection E as <-. exists []. rewrite app_nil_r. reflexivity.
  - destruct (extract ck b user_id m) as [results|e]; simpl in E; [|discriminate].
    destruct (IH _ E) as [rest ->]. exists (results ++ rest). rewrite app_assoc. reflexivity.
Qed.

Lemma export_data_rows (course_id sid : string) (bts : list string) (user_id : option string)
    (m : string) (get_root : bool) (r : export_result) (rows : list (list string)) :
  export course_id sid bts user_id m get_root = Ok (r, rows) ->
  error r = None /\ exists rest, rows = HEADER :: rest.
Proof.
  unfold export_data. intro E.
  destruct (find_src_block CourseKey_from_string get_items course_id sid)
    as [[ck src]|e]; simpl in E; [|discriminate].
  match type of E with
  | context [res_bind ?x _] => destruct x as [classes|e]; simpl in E; [|discriminate]
  end.
  match type of E with
  | context [scan_for_blocks ?a ?b ?c] => destruct (scan_for_blocks a b c) as [[u|e] blocks]
  end; simpl in E; [|discriminate].
  match type of E with
  | context [rows_of ?a ?b ?c ?d ?e] => destruct (rows_of a b c d e) as [rows'|e'] eqn:Er
  end; simpl in E; [|discriminate].
  injection E as <- <-. split; [reflexivity|].
  exact (collect_rows_prefix _ _ _ _ _ _ Er).
Qed.

Lemma extract_loop_filter (block : xblock) (user_id : option string) (m s1 s2 s3 : string)
    (subs : list submission) (rows : list (list string)) :
  (fix loop (subs : list submission) (rows : list (list string))
       : res (list (list string)) :=
     match subs with
     | [] => Ok rows
     | submission :: subs' =>
         username <- _get_username user_by_anonymous_id submission user_id ;;
         answer <- _get_answer get_item block submission ;;
         if negb (str_contains (lower m) (lower answer)) then loop subs' rows
         else loop subs' (rows ++ [[s1; s2; s3; _get_type block; xb_question block;
                                    answer; username]])
     end) subs rows =
  (resolved <- map_res (resolve block user_id) subs ;;
   Ok (rows ++ post_filter_rows (s1, s2, s3) block m resolved)).
Proof.
  revert rows. induction subs as [|s subs IH]; intro rows; simpl.
  - rewrite app_nil_r. reflexivity.
  - unfold resolve_submission.
    destruct (_get_username user_by_anonymous_id s user_id) as [u|e]; simpl; [|reflexivity].
    destruct (_get_answer get_item block s) as [a|e]; simpl; [|reflexivity].
    destruct (str_contains (lower m) (lower a)) eqn:Ec; simpl; rewrite IH;
      change (map_res _ subs) with (map_res (resolve block user_id) subs);
      destruct (map_res (resolve block user_id) subs) as [resolved|e]; simpl; try reflexivity.
    + unfold post_filter_rows. simpl. rewrite Ec, <- app_assoc. reflexivity.
    + unfold post_filter_rows. simpl. rewrite Ec. reflexivity.
Qed.

(** C9: [_extract_data] resolves every fetched submission (username,
    then answer) and emits a row for exactly those whose lowercased answer
    contains the lowercased filter; the fetch itself does not see the
    filter. Every table [export_data] produces starts with the fixed header
    row. *)
Theorem export_rows_post_filter :
  (forall ck block user_id m,
     extract ck block user_id m =
     (ctx <- _get_context block ;;
      resolved <- map_res (resolve block user_id) (fetch ck block user_id) ;;
      Ok (post_filter_rows ctx block m resolved))) /\
  (forall course_id sid bts user_id m get_root r rows,
     export course_id sid bts user_id m get_root = Ok (r, rows) ->
     exists rest, rows = HEADER :: rest).
Proof.
  split.
  - intros ck block user_id m. unfold _extract_data.
    destruct (_get_context block) as [[[s1 s2] s3]|e]; simpl; [|reflexivity].
    rewrite extract_loop_filter. reflexivity.
  - intros course_id sid bts user_id m get_root r rows E.
    exact (proj2 (export_data_rows _ _ _ _ _ _ _ _ E)).
Qed.

(** C2 (as corrected): when the course id does not parse
    ([CourseKey.from_string] raises [InvalidKeyError]), [export_data]
    raises [ValueError("Could not find the specified Block ID.")] to its
    caller instead of returning a structured result; every result it does
    return has [error = None]. *)
Theorem export_data_unresolved_raises :
  (forall course_id sid bts user_id m get_root,
     CourseKey_from_string course_id = None ->
     export_data CourseKey_from_string get_items runtime_tree unicode_key
                 get_all_submissions get_submissions_limit_1 user_by_anonymous_id get_item
                 time_start time_end filename_of course_id sid bts user_id m get_root =
       Raise (ValueError "Could not find the specified Block ID.")) /\
  (forall course_id sid bts user_id m get_root r rows,
     export_data CourseKey_from_string get_items runtime_tree unicode_key
                 get_all_submissions get_submissions_limit_1 user_by_anonymous_id get_item
                 time_start time_end filename_of course_id sid bts user_id m get_root = Ok (r, rows) -> error r = None).
Proof.
  split.
  - intros course_id sid bts user_id m get_root H. unfold export_data, find_src_block.
    rewrite H. reflexivity.
  - intros course_id sid bts user_id m get_root r rows E.
    exact (proj1 (export_data_rows _ _ _ _ _ _ _ _ E)).
Qed.

End ExportProofs.

(** ** Export witnesses *)

(** The walk over unit "U": the missing second child is skipped and the
    two questions around it are collected. *)
Lemma scan_for_blocks_tolerates_missing_witness :
  fst (scan_for_blocks [MCQBlock; RatingBlock; AnswerBlock] sample_unit_tree []) = Ok tt /\
  snd (scan_for_blocks [MCQBlock; RatingBlock; AnswerBlock] sample_unit_tree []) =
    [answer_blk; mcq_blk].
Proof.
  destruct (scan_for_blocks_tolerates_missing [MCQBlock; RatingBlock; AnswerBlock])
    as [H1 [H2 _]].
  split; [apply H1|].
  unfold sample_unit_tree. rewrite H2 by reflexivity. reflexivity.
Defined.

Lemma scan_for_blocks_no_nesting_witness :
  NoDup (map xb_usage_id (tree_blocks sample_course_tree)) /\
  NoDup (map xb_usage_id (snd (scan_for_blocks [MCQBlock; RatingBlock; AnswerBlock]
                                               sample_course_tree []))).
Proof.
  assert (Hnd : NoDup (map xb_usage_id (tree_blocks sample_course_tree))).
  { vm_compute. repeat constructor; simpl; intuition discriminate. }
  split; [exact Hnd|].
  exact (proj1 (proj2 (scan_for_blocks_no_nesting [MCQBlock; RatingBlock; AnswerBlock]
                                                  sample_course_tree Hnd))).
Defined.

Lemma get_context_farthest_witness :
  (forall x, In x (parent_chain grouped_mcq_blk) -> exists n, xb_display_name x = Ok n) /\
  _get_context grouped_mcq_blk =
    Ok (farthest_title grouped_mcq_blk "chapter", farthest_title grouped_mcq_blk "sequential",
        farthest_title grouped_mcq_blk "vertical").
Proof.
  assert (H : forall x, In x (parent_chain grouped_mcq_blk) ->
                        exists n, xb_display_name x = Ok n).
  { intros x Hx. simpl in Hx. intuition (subst; eexists; reflexivity). }
  split; [exact H|]. exact (get_context_farthest grouped_mcq_blk H).
Defined.

(** The question inside the split test's "Group A" vertical: the unit
    column is "U", the outer vertical, not "Group A", the nearest one. *)
Lemma get_context_nearest_counterexample :
  _get_context grouped_mcq_blk = Ok ("S", "Sub", "U") /\
  nearest_title grouped_mcq_blk "vertical" = "Group A".
Proof. split; reflexivity. Qed.

(** The spec's example: answers "cat" and "dog" under "S"/"Sub"/"U" with
    the filter "a" give the "cat" row only, after the header. *)
Lemma export_rows_post_filter_witness :
  _extract_data sample_unicode_key sample_all_submissions sample_submissions_limit_1
                sample_user sample_get_item sample_course_id answer_blk None "a" =
    Ok [["S"; "Sub"; "U"; "pb-answer"; "Favourite animal?"; "cat"; "alice"]] /\
  (forall r rows,
     export_data sample_course_key items_found sample_runtime_tree sample_unicode_key
                 sample_all_submissions sample_submissions_limit_1 sample_user
                 sample_get_item 0 0 sample_filename sample_course_id "ans1" [] None "a" true
       = Ok (r, rows) ->
     exists rest, rows = HEADER :: rest).
Proof.
  destruct (export_rows_post_filter sample_course_key items_found sample_runtime_tree
              sample_unicode_key sample_all_submissions sample_submissions_limit_1
              sample_user sample_get_item 0 0 sample_filename) as [H1 H2].
  split.
  - rewrite H1. vm_compute. reflexivity.
  - intros r rows. apply H2.
Defined.

Lemma export_data_unresolved_raises_witness :
  sample_course_key "course-v1:Org+Unknown" = None /\
  export_data sample_course_key items_found sample_runtime_tree sample_unicode_key
              sample_all_submissions sample_submissions_limit_1 sample_user
              sample_get_item 0 0 sample_filename "course-v1:Org+Unknown" "ans1" [] None "a" true =
    Raise (ValueError "Could not find the specified Block ID.").
Proof.
  split; [reflexivity|].
  apply (proj1 (export_data_unresolved_raises sample_course_key items_found sample_runtime_tree
                  sample_unicode_key sample_all_submissions sample_submissions_limit_1
                  sample_user sample_get_item 0 0 sample_filename)).
  reflexivity.
Defined.

(** A course id that does not parse: the task raises [ValueError] and
    returns no result, so there is no [error] field to report the failure
    in. *)
Lemma export_data_unresolved_counterexample :
  export_data sample_course_key items_found sample_runtime_tree sample_unicode_key
              sample_all_submissions sample_submissions_limit_1 sample_user
              sample_get_item 0 0 sample_filename "course-v1:Org+Unknown" "ans1" [] None "a" true =
    Raise (ValueError "Could not find the specified Block ID.") /\
  forall r rows,
    export_data sample_course_key items_found sample_runtime_tree sample_unicode_key
                sample_all_submissions sample_submissions_limit_1 sample_user
                sample_get_item 0 0 sample_filename "course-v1:Org+Unknown" "ans1" [] None "a" true
      <> Ok (r, rows).
Proof. split; [reflexivity|]. intros r rows E. vm_compute in E. discriminate E. Qed.

(** * Further properties of the mixins and the export task *)

(** ** [delete_key] and [transform_student_results] *)

Lemma dict_del_nodup {A : Type} (d : list (string * A)) (key : string) :
  NoDup (map fst d) ->
  dict_del d key = if existsb (String.eqb key) (map fst d) then Ok (drop_key key d)
                   else Raise (KeyError key).
Proof.
  induction d as [|[k v] d IH]; intro Hnd; simpl; [reflexivity|].
  inversion Hnd as [|? ? Hnotin Hnd']; subst.
  destruct (String.eqb k key) eqn:E.
  - rewrite (String.eqb_sym key k), E. simpl.
    f_equal.
    apply String.eqb_eq in E; subst.
    symmetry. apply forallb_filter_id. apply forallb_forall.
    intros [k' v'] Hin. simpl. destruct (String.eqb k' key) eqn:E'; [|reflexivity].
    apply String.eqb_eq in E'; subst. exfalso. apply Hnotin.
    apply (in_map fst _ _ Hin).
  - rewrite IH by exact Hnd'. rewrite (String.eqb_sym key k), E. simpl.
    destruct (existsb (String.eqb key) (map fst d)); simpl; [|reflexivity].
    unfold drop_key. simpl. rewrite ?E. reflexivity.
Qed.

Lemma drop_key_absent {A : Type} (d : list (string * A)) (key : string) :
  existsb (String.eqb key) (map fst d) = false -> drop_key key d = d.
Proof.
  induction d as [|[k v] d IH]; simpl; intro H; [reflexivity|].
  apply orb_false_iff in H as [H1 H2]. unfold drop_key in *. cbn [filter fst].
  rewrite String.eqb_sym, H1. cbn [negb]. rewrite IH by exact H2. reflexivity.
Qed.

Lemma delete_key_dict_nodup (d : list (string * json)) (key : string) :
  NoDup (map fst d) -> delete_key (JDict d) key = TOk (JDict (drop_key key d)).
Proof.
  intro Hnd. unfold delete_key. rewrite dict_del_nodup by exact Hnd.
  destruct (existsb (String.eqb key) (map fst d)) eqn:E; [reflexivity|].
  rewrite drop_key_absent by exact E. reflexivity.
Qed.

Lemma dict_del_ok_or_key_error {A : Type} (d : list (string * A)) (key : string) :
  (exists d', dict_del d key = Ok d') \/ dict_del d key = Raise (KeyError key).
Proof.
  induction d as [|[k v] d IH]; simpl; [right; reflexivity|].
  destruct (String.eqb k key); [left; eexists; reflexivity|].
  destruct IH as [[d1 E1]|E1]; rewrite E1; [left; eexists; reflexivity|right; reflexivity].
Qed.

Lemma delete_key_dict (d : list (string * json)) (key : string) :
  exists v, delete_key (JDict d) key = TOk v.
Proof.
  unfold delete_key. destruct (dict_del_ok_or_key_error d key) as [[d1 E1]|E1]; rewrite E1;
  eexists; reflexivity.
Qed.

Lemma delete_tips_each_dicts (l : list json) :
  (forall cd, In (JDict cd) l -> NoDup (map fst cd)) ->
  forallb is_dict l = true -> delete_tips_each l = TOk (map without_tips l).
Proof.
  induction l as [|x l IH]; intros Hnd Hd; simpl; [reflexivity|].
  simpl in Hd. apply andb_true_iff in Hd as [Hx Hl].
  destruct x as [| | | | |cd]; try discriminate.
  rewrite delete_key_dict_nodup by (apply Hnd; left; reflexivity).
  rewrite IH; [reflexivity| |exact Hl]. intros cd' H. apply Hnd. right. exact H.
Qed.

Lemma delete_tips_each_raises (l : list json) :
  forallb is_dict l = false -> exists e, delete_tips_each l = TRaise e.
Proof.
  induction l as [|x l IH]; intro Hd; [discriminate|].
  destruct x as [| | | | |cd]; try (simpl; eexists; reflexivity).
  cbn [delete_tips_each]. destruct (delete_key_dict cd "tips") as [v ->].
  destruct (IH Hd) as [e ->]. eexists; reflexivity.
Qed.

Lemma dict_set_same {A : Type} (d : list (string * A)) (k : string) (v : A) :
  dict_get d k = Some v -> dict_set d k v = d.
Proof.
  induction d as [|[k' v'] d IH]; simpl; [discriminate|].
  destruct (String.eqb k' k) eqn:E.
  - intro H. injection H as ->. apply String.eqb_eq in E. subst. reflexivity.
  - intro H. rewrite IH by exact H. reflexivity.
Qed.

Lemma transform_one_ok (d : list (string * json)) :
  NoDup (map fst d) ->
  (forall cs cd, dict_get d "choices" = Some (JList cs) -> In (JDict cd) cs ->
                 NoDup (map fst cd)) ->
  result_ok (JDict d) = true ->
  transform_one (JDict d) = TOk (tips_removed (JDict d)).
Proof.
  intros Hnd Hch Hok. unfold transform_one, tips_removed, dict_get_default.
  simpl in Hok. destruct (dict_get d "choices") as [c|] eqn:Ec.
  - destruct c as [| | | s | l | cd]; simpl in Hok; try discriminate.
    + apply String.eqb_eq in Hok. subst s. simpl.
      rewrite (dict_set_same d "choices" (JStr "") Ec).
      apply delete_key_dict_nodup. exact Hnd.
    + unfold delete_tips_in. simpl.
      rewrite delete_tips_each_dicts; [| exact (fun cd => Hch l cd eq_refl) | exact Hok].
      apply delete_key_dict_nodup. apply dict_set_nodup. exact Hnd.
    + destruct cd as [|kv cd]; [|discriminate]. simpl.
      rewrite (dict_set_same d "choices" (JDict []) Ec).
      apply delete_key_dict_nodup. exact Hnd.
  - simpl. apply delete_key_dict_nodup. exact Hnd.
Qed.

Lemma transform_one_accepts (c : json) :
  (exists c', transform_one c = TOk c') <-> result_ok c = true.
Proof.
  split.
  - intros [c' H]. destruct c as [| | | | |d]; try discriminate. simpl.
    unfold transform_one, dict_get_default in H.
    destruct (dict_get d "choices") as [ch|]; [|reflexivity].
    destruct ch as [| | | s | l | cd]; simpl in H |- *; try discriminate.
    + destruct s as [|a s]; [reflexivity|]. simpl in H. discriminate.
    + unfold delete_tips_in in H. simpl in H.
      destruct (forallb is_dict l) eqn:Hl; [reflexivity|].
      destruct (delete_tips_each_raises l Hl) as [e He]. rewrite He in H. discriminate.
    + destruct cd as [|kv cd]; [reflexivity|]. simpl in H. discriminate.
  - intro Hok. destruct c as [| | | | |d]; try discriminate.
    unfold transform_one, dict_get_default. simpl in Hok.
    destruct (dict_get d "choices") as [ch|].
    + destruct ch as [| | | s | l | cd]; simpl in Hok; try discriminate.
      * apply String.eqb_eq in Hok. subst s. simpl. apply delete_key_dict.
      * unfold delete_tips_in. simpl.
        assert (Hs : exists l', delete_tips_each l = TOk l').
        { clear -Hok. induction l as [|x l IH]; [eexists; reflexivity|].
          simpl in Hok. apply andb_true_iff in Hok as [Hx Hl].
          destruct x as [| | | | |cd]; try discriminate. cbn [delete_tips_each].
          destruct (delete_key_dict cd "tips") as [v ->].
          destruct (IH Hl) as [l' ->]. eexists; reflexivity. }
        destruct Hs as [l' ->]. apply delete_key_dict.
      * destruct cd as [|kv cd]; [|discriminate]. simpl. apply delete_key_dict.
    + simpl. apply delete_key_dict.
Qed.

(** [transform_student_results] returns normally exactly when every result is
    a dict whose ['choices'], if present, iterates over dicts; otherwise
    it raises. *)
Theorem transform_student_results_accepts (student_results : list (string * json)) :
  (exists out, transform_student_results student_results = TOk out) <->
  forallb (fun p => result_ok (snd p)) student_results = true.
Proof.
  induction student_results as [|[name c] rest IH]; simpl.
  - split; [reflexivity|]. intros _. eexists; reflexivity.
  - rewrite andb_true_iff, <- IH, <- transform_one_accepts.
    split.
    + intros [out H]. destruct (transform_one c) as [c'|e]; [|discriminate].
      destruct (transform_student_results rest) as [r|e]; [|discriminate].
      split; eexists; reflexivity.
    + intros [[c' Hc] [r Hr]]. rewrite Hc, Hr. eexists; reflexivity.
Qed.

Lemma drop_key_not_In {A : Type} (key : string) (d : list (string * A)) :
  ~ In key (map fst (drop_key key d)).
Proof.
  unfold drop_key. intro H. apply in_map_iff in H as [[k v] [Hk Hin]]. simpl in Hk. subst k.
  apply filter_In in Hin as [_ Hf]. simpl in Hf. rewrite String.eqb_refl in Hf. discriminate.
Qed.

Lemma dict_get_drop_key {A : Type} (key k : string) (d : list (string * A)) :
  key <> k -> dict_get (drop_key key d) k = dict_get d k.
Proof.
  intro Hne. induction d as [|[k' v] d IH]; simpl; [reflexivity|].
  unfold drop_key in *. simpl. destruct (String.eqb k' key) eqn:E; simpl.
  - apply String.eqb_eq in E. subst k'. destruct (String.eqb key k) eqn:E2.
    + apply String.eqb_eq in E2. contradiction.
    + exact IH.
  - destruct (String.eqb k' k); [reflexivity|exact IH].
Qed.

(** With unique dict keys and acceptable results, the transform returns the
    results with the ['tips'] key removed from each result dict and from
    each dict of its ['choices'] list, and no ['tips'] key remains there. *)
Theorem transform_student_results_removes_tips (student_results : list (string * json))
    (Huniq : results_keys_unique student_results)
    (Hok : forallb (fun p => result_ok (snd p)) student_results = true) :
  transform_student_results student_results =
    TOk (map (fun p => (fst p, tips_removed (snd p))) student_results) /\
  forall name d, In (name, JDict d) (map (fun p => (fst p, tips_removed (snd p))) student_results) ->
    ~ In "tips" (map fst d) /\
    forall cs cd, dict_get d "choices" = Some (JList cs) -> In (JDict cd) cs ->
      ~ In "tips" (map fst cd).
Proof.
  split.
  - induction student_results as [|[name c] rest IH]; simpl; [reflexivity|].
    simpl in Hok. apply andb_true_iff in Hok as [Hc Hrest].
    destruct c as [| | | | |d]; try discriminate.
    destruct (Huniq name d (or_introl eq_refl)) as [Hnd Hch].
    rewrite (transform_one_ok d Hnd Hch Hc).
    rewrite IH; [reflexivity| |exact Hrest].
    intros n d' H. apply (Huniq n d'). right. exact H.
  - intros name d Hin. apply in_map_iff in Hin as [[n c] [Heq _]].
    simpl in Heq. injection Heq as <- Hd.
    destruct c as [| | | | |d0]; simpl in Hd; try discriminate.
    injection Hd as <-. split; [apply drop_key_not_In|].
    intros cs cd Hget Hcd.
    rewrite dict_get_drop_key in Hget by discriminate.
    destruct (dict_get d0 "choices") as [[| | | | l |]|] eqn:E;
      try (rewrite E in Hget; congruence).
    rewrite dict_get_set in Hget. simpl in Hget. injection Hget as <-.
    apply in_map_iff in Hcd as [x [Hx _]].
    destruct x as [| | | | |cd0]; simpl in Hx; try discriminate.
    injection Hx as <-. apply drop_key_not_In.
Qed.

(** ** The export task's helpers *)

Lemma ascend_to_root_chain (b : xblock) :
  xb_parent (ascend_to_root b) = None /\ In (ascend_to_root b) (parent_chain b) /\
  forall x, In x (parent_chain b) -> ascend_to_root x = ascend_to_root b.
Proof.
  induction b as [uid cls ty dn q hc ch p IH] using xblock_ind_opt.
  destruct p as [p|]; simpl.
  - destruct IH as [H1 [H2 H3]]. split; [exact H1|]. split; [right; exact H2|].
    intros x [<-|Hx]; [reflexivity|]. apply H3. exact Hx.
  - split; [reflexivity|]. split; [left; reflexivity|].
    intros x [<-|[]]. reflexivity.
Qed.

Lemma collect_ext (bts1 bts2 : list block_class) (t : tree) :
  (forall b, isinstance b bts1 = isinstance b bts2) -> collect bts1 t = collect bts2 t.
Proof.
  intro H. induction t as [b cs IH] using tree_ind'. simpl. rewrite H.
  destruct (isinstance b bts2); [reflexivity|]. destruct (xb_has_children b); [|reflexivity].
  induction IH as [|c cs Hc _ IH']; [reflexivity|]. simpl. f_equal; [|exact IH'].
  destruct c; [reflexivity|exact Hc].
Qed.

Lemma isinstance_mcq_rating (b : xblock) :
  isinstance b [MCQBlock] = isinstance b [MCQBlock; RatingBlock].
Proof. unfold isinstance. destruct (xb_class b); reflexivity. Qed.

Lemma get_context_loop_error (b : xblock) :
  forall pre x post e d,
  parent_chain b = pre ++ x :: post ->
  (forall y, In y pre -> exists n, xb_display_name y = Ok n) ->
  xb_display_name x = Raise e -> get_context_loop b d = Raise e.
Proof.
  induction b as [uid cls ty dn q hc ch p IH] using xblock_ind_opt.
  intros pre x post e d Hc Hpre Hx. destruct pre as [|y pre]; simpl in Hc.
  - injection Hc as <- _. simpl in Hx. subst dn. reflexivity.
  - injection Hc as <- Hc. destruct (Hpre _ (or_introl eq_refl)) as [n Hn].
    simpl in Hn. subst dn. simpl.
    destruct p as [p|]; [|destruct pre; discriminate].
    apply (IH pre x post e); [exact Hc| |exact Hx].
    intros y Hy. apply Hpre. right. exact Hy.
Qed.

Lemma match_choice_skip (get_item : usage_key -> res choice_block) (a : string)
    (pre rest : list usage_key) :
  (forall c, In c pre -> exists cb v, get_item c = Ok cb /\ cb_value cb = Some v /\ v <> a) ->
  match_choice get_item a (pre ++ rest) = match_choice get_item a rest.
Proof.
  induction pre as [|c pre IH]; intro H; simpl; [reflexivity|].
  destruct (H c (or_introl eq_refl)) as [cb [v [Hcb [Hv Hne]]]]. rewrite Hcb. simpl.
  rewrite Hv.
  destruct (String.eqb v a) eqn:E; [apply String.eqb_eq in E; contradiction|].
  apply IH. intros c' Hc'. apply H. right. exact Hc'.
Qed.

(** [_get_answer]: without children the submitted answer is returned.  With
    children, past choices that load and carry another value: the content
    of the first choice whose value equals the answer, an [AttributeError]
    if that choice has no value, the error of [modulestore().get_item] if
    it fails to load; the answer itself when no choice matches. *)
Theorem get_answer_choice (get_item : usage_key -> res choice_block) (block : xblock)
    (s : submission) :
  (xb_children block = None -> _get_answer get_item block s = Ok (sub_answer s)) /\
  (forall pre c post,
     xb_children block = Some (pre ++ c :: post) ->
     (forall c', In c' pre ->
        exists cb v, get_item c' = Ok cb /\ cb_value cb = Some v /\ v <> sub_answer s) ->
     (forall cb, get_item c = Ok cb -> cb_value cb = Some (sub_answer s) ->
      _get_answer get_item block s = Ok (cb_content cb)) /\
     (forall cb, get_item c = Ok cb -> cb_value cb = None ->
      _get_answer get_item block s = Raise (AttributeError "value")) /\
     (forall e, get_item c = Raise e -> _get_answer get_item block s = Raise e)) /\
  (forall choices,
     xb_children block = Some choices ->
     (forall c, In c choices ->
        exists cb v, get_item c = Ok cb /\ cb_value cb = Some v /\ v <> sub_answer s) ->
     _get_answer get_item block s = Ok (sub_answer s)).
Proof.
  unfold _get_answer. split; [|split].
  - intros ->. reflexivity.
  - intros pre c post -> Hpre. rewrite match_choice_skip by exact Hpre. simpl.
    split; [|split].
    + intros cb Hcb Hv. rewrite Hcb. simpl. rewrite Hv, String.eqb_refl. reflexivity.
    + intros cb Hcb Hv. rewrite Hcb. simpl. rewrite Hv. reflexivity.
    + intros e He. rewrite He. reflexivity.
  - intros choices -> H. rewrite <- (app_nil_r choices), match_choice_skip by exact H.
    reflexivity.
Qed.

(** ** The export task as a whole *)

Section ExportMore.

Variable CourseKey_from_string : string -> option string.
Variable get_items : string -> string -> list (option xblock).
Variable runtime_tree : xblock -> tree.
Variable unicode_key : usage_key -> string.
Variable get_all_submissions : string -> string -> string -> list submission.
Variable get_submissions_limit_1 : option string -> string -> string -> string -> list submission.
Variable user_by_anonymous_id : option string -> option string.
Variable get_item : usage_key -> res choice_block.
Variable time_start time_end : nat.
Variable filename_of : nat -> string.

Local Abbreviation extract :=
  (_extract_data unicode_key get_all_submissions get_submissions_limit_1
                 user_by_anonymous_id get_item).

Lemma collect_rows_map_res (ck : string) (blocks : list xblock) (user_id : option string)
    (m : string) (acc : list (list string)) :
  collect_rows unicode_key get_all_submissions get_submissions_limit_1
               user_by_anonymous_id get_item ck blocks user_id m acc =
  (rss <- map_res (fun b => extract ck b user_id m) blocks ;; Ok (acc ++ concat rss)).
Proof.
  revert acc. induction blocks as [|b blocks IH]; intro acc; simpl.
  - rewrite app_nil_r. reflexivity.
  - destruct (extract ck b user_id m) as [rs|e]; simpl; [|reflexivity].
    rewrite IH. destruct (map_res (fun b => extract ck b user_id m) blocks); simpl;
      [|reflexivity].
    rewrite app_assoc. reflexivity.
Qed.

Lemma export_data_blocks (course_id sid : string) (bts : list string)
    (user_id : option string) (m : string) (get_root : bool) :
  export_data CourseKey_from_string get_items runtime_tree unicode_key get_all_submissions
              get_submissions_limit_1 user_by_anonymous_id get_item time_start time_end
              filename_of course_id sid bts user_id m get_root =
  (src <- find_src_block CourseKey_from_string get_items course_id sid ;;
   let '(ck, src_block) := src in
   classes <- block_classes bts ;;
   rss <- map_res (fun b => extract ck b user_id m)
            (collect classes (runtime_tree (if get_root then ascend_to_root src_block
                                            else src_block))) ;;
   Ok ({| error := None;
          report_filename := filename_of time_start;
          start_timestamp := time_start;
          generation_time_s := time_end - time_start;
          display_data := firstn 1000 (concat rss) |},
       HEADER :: concat rss)).
Proof.
  unfold export_data.
  destruct (find_src_block CourseKey_from_string get_items course_id sid)
    as [[ck src]|e]; simpl; [|reflexivity].
  change (match bts with
          | [] => Ok [MCQBlock; RatingBlock; AnswerBlock]
          | _ => map_res type_map bts
          end) with (block_classes bts).
  destruct (block_classes bts) as [classes|e]; simpl; [|reflexivity].
  rewrite scan_for_blocks_collect. simpl. rewrite collect_rows_map_res.
  destruct (map_res _ _) as [rss|e]; simpl; [|reflexivity].
  destruct (concat rss); reflexivity.
Qed.

Lemma extract_rows_width (ck : string) (b : xblock) (user_id : option string) (m : string)
    (rs : list (list string)) :
  extract ck b user_id m = Ok rs -> Forall (fun row => length row = 7) rs.
Proof.
  unfold _extract_data. destruct (_get_context b) as [[[s1 s2] s3]|e]; simpl; [|discriminate].
  rewrite extract_loop_filter.
  destruct (map_res _ _) as [resolved|e]; simpl; [|discriminate].
  intro H. injection H as <-. unfold post_filter_rows.
  apply Forall_forall. intros row Hrow. apply in_map_iff in Hrow as [[u a] [<- _]].
  reflexivity.
Qed.

Lemma map_res_In {A B : Type} (f : A -> res B) (l : list A) (ys : list B) :
  map_res f l = Ok ys -> forall y, In y ys -> exists x, In x l /\ f x = Ok y.
Proof.
  revert ys. induction l as [|x l IH]; intros ys H y Hy; simpl in H.
  - injection H as <-. destruct Hy.
  - destruct (f x) as [y0|e] eqn:Ef; simpl in H; [|discriminate].
    destruct (map_res f l) as [ys'|e] eqn:El; simpl in H; [|discriminate].
    injection H as <-. destruct Hy as [<-|Hy].
    + exists x. split; [left; reflexivity|exact Ef].
    + destruct (IH ys' eq_refl y Hy) as [x' [Hx' Hf]]. exists x'. split; [right; exact Hx'|exact Hf].
Qed.

(** Every row [export_data] returns, and every preview row, has the
    header's seven columns, and the preview has at most 1000 rows. *)
Theorem export_data_rows_width (course_id sid : string) (bts : list string)
    (user_id : option string) (m : string) (get_root : bool)
    (r : export_result) (rows : list (list string))
    (H : export_data CourseKey_from_string get_items runtime_tree unicode_key
           get_all_submissions get_submissions_limit_1 user_by_anonymous_id get_item
           time_start time_end filename_of course_id sid bts user_id m get_root = Ok (r, rows)) :
  Forall (fun row => length row = length HEADER) rows /\
  Forall (fun row => length row = length HEADER) (display_data r) /\
  length (display_data r) <= 1000.
Proof.
  rewrite export_data_blocks in H. remember 1000 as lim eqn:Hlim in H.
  destruct (find_src_block CourseKey_from_string get_items course_id sid)
    as [[ck src]|e]; cbn -[firstn] in H; [|discriminate].
  destruct (block_classes bts) as [classes|e]; cbn -[firstn] in H; [|discriminate].
  destruct (map_res _ _) as [rss|e] eqn:Erss; cbn -[firstn] in H; [|discriminate].
  injection H as <- <-. cbn [display_data].
  assert (Hall : Forall (fun row => length row = 7) (concat rss)).
  { apply Forall_forall. intros row Hrow. apply in_concat in Hrow as [rs [Hrs Hrow]].
    destruct (map_res_In _ _ _ Erss rs Hrs) as [b [_ Hb]].
    exact (proj1 (Forall_forall _ _) (extract_rows_width _ _ _ _ _ Hb) row Hrow). }
  split; [constructor; [reflexivity|exact Hall]|]. split.
  - apply Forall_forall. intros row Hrow. apply (proj1 (Forall_forall _ _) Hall).
    rewrite <- (firstn_skipn lim (concat rss)). apply in_or_app. left. exact Hrow.
  - rewrite length_firstn. lia.
Qed.

Lemma type_map_unknown (name : string) :
  ~ In name ["MCQBlock"; "RatingBlock"; "AnswerBlock"] -> type_map name = Raise (KeyError name).
Proof.
  intro Hname. unfold type_map.
  destruct (String.eqb name "MCQBlock") eqn:E1;
    [apply String.eqb_eq in E1; subst; exfalso; apply Hname; simpl; tauto|].
  destruct (String.eqb name "RatingBlock") eqn:E2;
    [apply String.eqb_eq in E2; subst; exfalso; apply Hname; simpl; tauto|].
  destruct (String.eqb name "AnswerBlock") eqn:E3;
    [apply String.eqb_eq in E3; subst; exfalso; apply Hname; simpl; tauto|].
  reflexivity.
Qed.

Lemma block_classes_unknown (pre post : list string) (name : string) :
  (forall x, In x pre -> In x ["MCQBlock"; "RatingBlock"; "AnswerBlock"]) ->
  ~ In name ["MCQBlock"; "RatingBlock"; "AnswerBlock"] ->
  block_classes (pre ++ name :: post) = Raise (KeyError name).
Proof.
  intros Hpre Hname.
  assert (H : map_res type_map (pre ++ name :: post) = Raise (KeyError name)).
  { induction pre as [|x pre IH]; simpl.
    - rewrite type_map_unknown by exact Hname. reflexivity.
    - destruct (Hpre x (or_introl eq_refl)) as [<-|[<-|[<-|[]]]]; simpl;
        rewrite IH by (intros y Hy; apply Hpre; right; exact Hy); reflexivity. }
  unfold block_classes. destruct pre; exact H.
Qed.

(** A block type name outside MCQBlock, RatingBlock and AnswerBlock makes
    [export_data] raise [KeyError] with that name, at the first such name. *)
Theorem export_data_unknown_block_type (course_id sid : string)
    (user_id : option string) (m : string) (get_root : bool)
    (ck : string) (src : xblock) (pre post : list string) (name : string)
    (Hsrc : find_src_block CourseKey_from_string get_items course_id sid = Ok (ck, src))
    (Hpre : forall x, In x pre -> In x ["MCQBlock"; "RatingBlock"; "AnswerBlock"])
    (Hname : ~ In name ["MCQBlock"; "RatingBlock"; "AnswerBlock"]) :
  export_data CourseKey_from_string get_items runtime_tree unicode_key get_all_submissions
              get_submissions_limit_1 user_by_anonymous_id get_item time_start time_end
              filename_of course_id sid (pre ++ name :: post) user_id m get_root =
  Raise (KeyError name).
Proof.
  rewrite export_data_blocks, Hsrc. simpl.
  rewrite block_classes_unknown by assumption. reflexivity.
Qed.

(** Asking for MCQBlock alone exports the same as asking for MCQBlock and
    RatingBlock: a rating block is an MCQ block for [isinstance]. *)
Theorem export_data_mcq_includes_rating (course_id sid : string)
    (user_id : option string) (m : string) (get_root : bool) :
  export_data CourseKey_from_string get_items runtime_tree unicode_key get_all_submissions
              get_submissions_limit_1 user_by_anonymous_id get_item time_start time_end
              filename_of course_id sid ["MCQBlock"] user_id m get_root =
  export_data CourseKey_from_string get_items runtime_tree unicode_key get_all_submissions
              get_submissions_limit_1 user_by_anonymous_id get_item time_start time_end
              filename_of course_id sid ["MCQBlock"; "RatingBlock"] user_id m get_root.
Proof.
  rewrite !export_data_blocks.
  destruct (find_src_block CourseKey_from_string get_items course_id sid)
    as [[ck src]|e]; simpl; [|reflexivity].
  rewrite (collect_ext [MCQBlock] [MCQBlock; RatingBlock]) by exact isinstance_mcq_rating.
  reflexivity.
Qed.

Lemma find_src_block_key (course_id sid ck : string) (src : xblock) :
  find_src_block CourseKey_from_string get_items course_id sid = Ok (ck, src) ->
  CourseKey_from_string course_id = Some ck.
Proof.
  unfold find_src_block. destruct (CourseKey_from_string course_id) as [k|]; simpl;
    [|discriminate].
  destruct (get_items k sid) as [|[b|] rest]; simpl; try discriminate.
  intro H. injection H as -> _. reflexivity.
Qed.

(** With [get_root], exporting from a block or from any of its ancestors in
    the same course gives the same result. *)
Theorem export_data_from_ancestor (course_id sid1 sid2 : string) (bts : list string)
    (user_id : option string) (m : string)
    (ck1 ck2 : string) (s1 s2 : xblock)
    (H1 : find_src_block CourseKey_from_string get_items course_id sid1 = Ok (ck1, s1))
    (H2 : find_src_block CourseKey_from_string get_items course_id sid2 = Ok (ck2, s2))
    (Hanc : In s2 (parent_chain s1)) :
  export_data CourseKey_from_string get_items runtime_tree unicode_key get_all_submissions
              get_submissions_limit_1 user_by_anonymous_id get_item time_start time_end
              filename_of course_id sid1 bts user_id m true =
  export_data CourseKey_from_string get_items runtime_tree unicode_key get_all_submissions
              get_submissions_limit_1 user_by_anonymous_id get_item time_start time_end
              filename_of course_id sid2 bts user_id m true.
Proof.
  assert (ck2 = ck1) as ->.
  { pose proof (find_src_block_key _ _ _ _ H1) as K1.
    pose proof (find_src_block_key _ _ _ _ H2) as K2. congruence. }
  rewrite !export_data_blocks, H1, H2. simpl.
  rewrite (proj2 (proj2 (ascend_to_root_chain s1)) s2 Hanc). reflexivity.
Qed.

End ExportMore.

(** ** The mixins *)

(** [_get_context] raises the error of the first block on the parent chain
    whose [display_name_with_default] raises. *)
Theorem get_context_first_error (b x : xblock) (pre post : list xblock) (e : exn)
    (Hchain : parent_chain b = pre ++ x :: post)
    (Hpre : forall y, In y pre -> exists n, xb_display_name y = Ok n)
    (Hx : xb_display_name x = Raise e) :
  _get_context b = Raise e.
Proof.
  unfold _get_context. rewrite (get_context_loop_error b pre x post e [] Hchain Hpre Hx).
  reflexivity.
Qed.

(** [step_number], [lonely_child] and [display_name_with_default] do not
    depend on the branch and version of the block's usage id. *)
Theorem step_number_ignores_branch_version (ugettext : string -> string)
    (b : step_block) (k : usage_key)
    (Hc : uk_course k = uk_course (usage_id b))
    (Ht : uk_block_type k = uk_block_type (usage_id b))
    (Hi : uk_block_id k = uk_block_id (usage_id b)) :
  let b' := mkStep k (display_name b) (siblings b) in
  step_number b' = step_number b /\ lonely_child b' = lonely_child b /\
  display_name_with_default ugettext b' = display_name_with_default ugettext b.
Proof.
  assert (Hn : _normalize_id k = _normalize_id (usage_id b)).
  { unfold _normalize_id. rewrite Hc, Ht, Hi. reflexivity. }
  destruct b as [uid dn sibs]. simpl in *.
  unfold display_name_with_default, step_number, lonely_child. simpl. rewrite Hn.
  repeat split.
Qed.

(** An untitled child missing from its parent's step ids makes
    [display_name_with_default] raise the lonely-child [ValueError]. *)
Theorem display_name_untitled_stale (ugettext : string -> string) (b : step_block)
    (Hdn : display_name b = "")
    (Habs : ~ In (_normalize_id (usage_id b)) (siblings b)) :
  display_name_with_default ugettext b =
    Raise (ValueError "Question's parent should contain Question").
Proof.
  unfold display_name_with_default, lonely_child. rewrite Hdn. simpl.
  destruct (existsb (key_eqb (_normalize_id (usage_id b))) (siblings b)) eqn:E.
  - apply existsb_key_In in E. contradiction.
  - reflexivity.
Qed.

Lemma build_children_loop_raise {V : Type} (build : node V -> res (list (string * proj V)))
    (pre post : list (string * lookup V)) (child_id : string) (l : lookup V) (e : exn) :
  (forall c l', In (c, l') pre ->
     match l' with
     | LRaise _ => False
     | LNone | LPlain => True
     | LState m => exists r, build m = Ok r
     end) ->
  (l = LRaise e \/ exists m, l = LState m /\ build m = Raise e) ->
  forall acc, build_children_loop build (pre ++ (child_id, l) :: post) acc = Raise e.
Proof.
  intros Hpre Hl. induction pre as [|[c l0] pre IH]; intro acc; simpl.
  - destruct Hl as [->|[m [-> Hm]]]; [reflexivity|]. rewrite Hm. reflexivity.
  - pose proof (Hpre c l0 (or_introl eq_refl)) as Hl0.
    assert (Hpre' : forall c' l', In (c', l') pre ->
                    match l' with
                    | LRaise _ => False
                    | LNone | LPlain => True
                    | LState m => exists r, build m = Ok r
                    end) by (intros c' l' H; apply (Hpre c' l'); right; exact H).
    destruct l0 as [e'| | |m]; try contradiction; try (apply IH; exact Hpre').
    destruct Hl0 as [r ->]. simpl. apply IH. exact Hpre'.
Qed.

(** A child whose lookup raises, or whose own [build_user_state_data]
    raises, makes the parent's [build_user_state_data] raise the same error
    when the parent has children (the children before it being passed
    without error); a parent without [has_children] never looks at its
    children and returns its projected fields. *)
Theorem build_user_state_data_child_raises {V : Type} (fields : list (field V))
    (allow : list string) (transforms : list (string * (V -> res V)))
    (result : list (string * proj V))
    (pre post : list (string * lookup V)) (child_id : string) (l : lookup V) (e : exn)
    (Hfields : project_fields V fields allow transforms = Ok result)
    (Hpre : forall c l', In (c, l') pre ->
       match l' with
       | LRaise _ => False
       | LNone | LPlain => True
       | LState m => exists r, build_user_state_data V m = Ok r
       end)
    (Hl : l = LRaise e \/ exists m, l = LState m /\ build_user_state_data V m = Raise e) :
  build_user_state_data V
    (Node fields allow transforms true (pre ++ (child_id, l) :: post)) = Raise e /\
  build_user_state_data V
    (Node fields allow transforms false (pre ++ (child_id, l) :: post)) = Ok result.
Proof.
  split; rewrite build_user_state_data_eq, Hfields; simpl; [|reflexivity].
  rewrite (build_children_loop_raise _ pre post child_id l e Hpre Hl []). reflexivity.
Qed.

Lemma fields_loop_raise {V : Type} (allow : list string)
    (transforms : list (string * (V -> res V))) (pre post : list (field V)) (f : field V)
    (e : exn) :
  (forall g, In g pre -> selected allow g ->
     exists w, transformer V transforms (f_name g) (f_value g) = Ok w) ->
  selected allow f -> transformer V transforms (f_name f) (f_value f) = Raise e ->
  forall acc, fields_loop V allow transforms (pre ++ f :: post) acc = Raise e.
Proof.
  intros Hpre Hsel He. induction pre as [|g pre IH]; intro acc; simpl.
  - unfold field_step. apply selected_bool in Hsel. rewrite Hsel, He. reflexivity.
  - unfold field_step at 1.
    destruct (in_include_scopes (f_scope g) && existsb (String.eqb (f_name g)) allow) eqn:Eg.
    + apply selected_bool in Eg. destruct (Hpre g (or_introl eq_refl) Eg) as [w Hw].
      rewrite Hw. simpl. apply IH. intros g' Hg'. apply Hpre. right. exact Hg'.
    + simpl. apply IH. intros g' Hg'. apply Hpre. right. exact Hg'.
Qed.

(** The first selected field whose registered transform raises makes
    [build_user_state_data] raise that error, whatever the node's children:
    the transforms run before any child is looked up. *)
Theorem build_user_state_data_transform_raises {V : Type} (fields : list (field V))
    (allow : list string) (transforms : list (string * (V -> res V)))
    (has_children : bool) (children : list (string * lookup V))
    (pre post : list (field V)) (f : field V) (e : exn)
    (Hfields : fields = pre ++ f :: post)
    (Hpre : forall g, In g pre -> selected allow g ->
       exists w, transformer V transforms (f_name g) (f_value g) = Ok w)
    (Hsel : selected allow f)
    (He : transformer V transforms (f_name f) (f_value f) = Raise e) :
  build_user_state_data V (Node fields allow transforms has_children children) = Raise e.
Proof.
  rewrite build_user_state_data_eq. unfold project_fields. subst fields.
  rewrite (fields_loop_raise allow transforms pre post f e Hpre Hsel He []). reflexivity.
Qed.

(** ** Witnesses of the further properties *)

Lemma transform_student_results_removes_tips_witness :
  results_keys_unique sample_student_results /\
  forallb (fun p => result_ok (snd p)) sample_student_results = true /\
  transform_student_results sample_student_results =
    TOk [("q1", JDict [("status", JStr "correct");
                       ("choices", JList [JDict [("value", JStr "a")];
                                          JDict [("value", JStr "b")]])]);
         ("q2", JDict [("status", JStr "incorrect"); ("score", JNum 0)])].
Proof.
  assert (Hu : results_keys_unique sample_student_results).
  { intros name d H. simpl in H.
    destruct H as [H|[H|[]]]; injection H as <- <-; split;
      try (repeat constructor; simpl; intuition discriminate);
      intros cs cd Hc Hin; simpl in Hc; try discriminate.
    injection Hc as <-. simpl in Hin.
    destruct Hin as [Hin|[Hin|[]]]; injection Hin as <-;
      repeat constructor; simpl; intuition discriminate. }
  assert (Hok : forallb (fun p => result_ok (snd p)) sample_student_results = true)
    by reflexivity.
  split; [exact Hu|]. split; [exact Hok|].
  rewrite (proj1 (transform_student_results_removes_tips sample_student_results Hu Hok)).
  reflexivity.
Defined.

Lemma get_context_first_error_witness :
  parent_chain stale_question_blk =
    [] ++ stale_question_blk :: [vertical_blk; sequential_blk; chapter_blk; course_blk] /\
  _get_context stale_question_blk =
    Raise (ValueError "Question's parent should contain Question").
Proof.
  split; [reflexivity|].
  apply (get_context_first_error stale_question_blk stale_question_blk []
           [vertical_blk; sequential_blk; chapter_blk; course_blk]).
  - reflexivity.
  - intros y [].
  - reflexivity.
Defined.

Lemma step_number_ignores_branch_version_witness :
  let b := mkStep (mcq_key "q1") "" [_normalize_id (mcq_key "q1")] in
  let b' := mkStep (mkKey sample_course_id "pb-mcq" "q1" (Some "published") (Some "v2"))
                   (display_name b) (siblings b) in
  step_number b' = step_number b /\ lonely_child b' = lonely_child b /\
  display_name_with_default (fun s => s) b' = display_name_with_default (fun s => s) b.
Proof.
  exact (step_number_ignores_branch_version (fun s => s)
           (mkStep (mcq_key "q1") "" [_normalize_id (mcq_key "q1")])
           (mkKey sample_course_id "pb-mcq" "q1" (Some "published") (Some "v2"))
           eq_refl eq_refl eq_refl).
Defined.

Lemma display_name_untitled_stale_witness :
  display_name_with_default (fun s => s)
    (mkStep (mcq_key "q9") "" [_normalize_id (mcq_key "q1")]) =
    Raise (ValueError "Question's parent should contain Question").
Proof.
  apply display_name_untitled_stale.
  - reflexivity.
  - simpl. intros [H|[]]. discriminate H.
Defined.

Lemma build_user_state_data_child_raises_witness :
  build_user_state_data (list (string * json)) (results_step_node malformed_student_results)
    = Raise (AttributeError "get") /\
  build_user_state_data (list (string * json)) results_parent_node
    = Raise (AttributeError "get").
Proof.
  assert (Hm : build_user_state_data (list (string * json))
                 (results_step_node malformed_student_results) = Raise (AttributeError "get"))
    by reflexivity.
  split; [exact Hm|].
  apply (proj1 (build_user_state_data_child_raises [] [] [] []
                  [("block-v1:html", LPlain)] [] "block-v1:step"
                  (LState (results_step_node malformed_student_results))
                  (AttributeError "get") eq_refl
                  ltac:(intros c l [H|[]]; injection H as <- <-; exact I)
                  ltac:(right; eexists; split; [reflexivity|exact Hm]))).
Defined.

Lemma build_user_state_data_transform_raises_witness :
  build_user_state_data (list (string * json)) (results_step_node malformed_student_results)
    = Raise (AttributeError "get").
Proof.
  apply (build_user_state_data_transform_raises
           [mkField "student_results" scope_user_state malformed_student_results]
           ["student_results"]
           [("student_results", fun v => to_res (transform_student_results v))] false []
           [] [] (mkField "student_results" scope_user_state malformed_student_results)).
  - reflexivity.
  - intros g [].
  - split; [simpl; auto|left; reflexivity].
  - reflexivity.
Defined.

Lemma export_data_rows_width_witness :
  let r := {| error := None; report_filename := "pb-data-export.csv";
              start_timestamp := 0; generation_time_s := 0;
              display_data := [["S"; "Sub"; "U"; "pb-answer"; "Favourite animal?"; "cat";
                                "alice"]] |} in
  let rows := [HEADER; ["S"; "Sub"; "U"; "pb-answer"; "Favourite animal?"; "cat"; "alice"]] in
  export_data sample_course_key items_found sample_runtime_tree sample_unicode_key
              sample_all_submissions sample_submissions_limit_1 sample_user
              sample_get_item 0 0 sample_filename sample_course_id "ans1" [] None "a" true =
    Ok (r, rows) /\
  Forall (fun row => length row = length HEADER) rows /\
  Forall (fun row => length row = length HEADER) (display_data r) /\
  length (display_data r) <= 1000.
Proof.
  intros r rows.
  assert (H : export_data sample_course_key items_found sample_runtime_tree
                sample_unicode_key sample_all_submissions sample_submissions_limit_1
                sample_user sample_get_item 0 0 sample_filename sample_course_id "ans1" []
                None "a" true = Ok (r, rows)) by (vm_compute; reflexivity).
  split; [exact H|].
  exact (export_data_rows_width sample_course_key items_found sample_runtime_tree
           sample_unicode_key sample_all_submissions sample_submissions_limit_1
           sample_user sample_get_item 0 0 sample_filename sample_course_id "ans1" []
           None "a" true r rows H).
Defined.

Lemma export_data_unknown_block_type_witness :
  export_data sample_course_key items_found sample_runtime_tree sample_unicode_key
              sample_all_submissions sample_submissions_limit_1 sample_user
              sample_get_item 0 0 sample_filename sample_course_id "ans1"
              ["MCQBlock"; "PollBlock"] None "a" true =
    Raise (KeyError "PollBlock").
Proof.
  apply (export_data_unknown_block_type sample_course_key items_found sample_runtime_tree
           sample_unicode_key sample_all_submissions sample_submissions_limit_1
           sample_user sample_get_item 0 0 sample_filename sample_course_id "ans1"
           None "a" true sample_course_id answer_blk ["MCQBlock"] [] "PollBlock").
  - reflexivity.
  - intros x [<-|[]]. simpl. auto.
  - simpl. intuition discriminate.
Defined.

Lemma export_data_from_ancestor_witness :
  In vertical_blk (parent_chain answer_blk) /\
  export_data sample_course_key items_by_name sample_runtime_tree sample_unicode_key
              sample_all_submissions sample_submissions_limit_1 sample_user
              sample_get_item 0 0 sample_filename sample_course_id "ans1" [] None "a" true =
  export_data sample_course_key items_by_name sample_runtime_tree sample_unicode_key
              sample_all_submissions sample_submissions_limit_1 sample_user
              sample_get_item 0 0 sample_filename sample_course_id "u1" [] None "a" true.
Proof.
  assert (Hanc : In vertical_blk (parent_chain answer_blk)) by (simpl; auto).
  split; [exact Hanc|].
  exact (export_data_from_ancestor sample_course_key items_by_name sample_runtime_tree
           sample_unicode_key sample_all_submissions sample_submissions_limit_1
           sample_user sample_get_item 0 0 sample_filename sample_course_id "ans1" "u1" []
           None "a" sample_course_id sample_course_id answer_blk vertical_blk
           eq_refl eq_refl Hanc).
Defined.
